(** * Admin dashboard controllers: statistics, counts and paginated listers

    A shallow embedding of [src/controllers/adminStatsController.js] and
    [src/controllers/dashboardController.js].

    - JavaScript numbers are held as their mathematical values: [NaN], an
      infinity, or a rational.  IEEE rounding is not modelled; the sign of
      a zero and of an infinity is not tracked (neither is observable in a
      response: JSON renders every non-finite number as [null] and a
      negative zero as [0]).
    - Strings are sequences of code units below 256.
    - Documents are finite maps from field names to values; a collection
      is the list of its documents in storage order.
    - The handlers run in an exception monad that counts the awaited
      database calls, so that any one of them can be made to fail. *)

From Stdlib Require Import Ascii String QArith Qround Qpower Lqa Sorted.
From stdpp Require Import gmap strings list pretty sorting.

Local Open Scope Z_scope.

(** ** JavaScript numbers *)

Module JS.

Inductive jsnum :=
  | NaN
  | Inf                (* +Infinity or -Infinity *)
  | Fin (q : Q).

Definition of_Z (z : Z) : jsnum := Fin (inject_Z z).
Definition of_nat (n : nat) : jsnum := of_Z (Z.of_nat n).

Definition Qis_zero (q : Q) : bool := Z.eqb (Qnum q) 0.

(** [a - b] *)
Definition sub (a b : jsnum) : jsnum :=
  match a, b with
  | NaN, _ | _, NaN => NaN
  | Inf, Inf => NaN    (* same signs give NaN, opposite ones an infinity;
                          no handler subtracts from an infinity another one *)
  | Inf, Fin _ | Fin _, Inf => Inf
  | Fin x, Fin y => Fin (x - y)
  end.

(** [a * b] *)
Definition mul (a b : jsnum) : jsnum :=
  match a, b with
  | NaN, _ | _, NaN => NaN
  | Inf, Inf => Inf
  | Inf, Fin y => if Qis_zero y then NaN else Inf
  | Fin x, Inf => if Qis_zero x then NaN else Inf
  | Fin x, Fin y => Fin (x * y)
  end.

(** [a / b] *)
Definition div (a b : jsnum) : jsnum :=
  match a, b with
  | NaN, _ | _, NaN => NaN
  | Inf, Inf => NaN
  | Inf, Fin _ => Inf
  | Fin _, Inf => Fin 0
  | Fin x, Fin y =>
      if Qis_zero y then (if Qis_zero x then NaN else Inf) else Fin (x / y)
  end.

(** [x.toFixed(1)] on a finite [x]: the integer [n] for which [n / 10] is
    nearest to [x], the larger one of two; a negative [x] is rounded as
    [-x] and negated.  The result is the number of tenths. *)
Definition round1 (x : Q) : Z :=
  if Qle_bool 0 x then Qfloor (x * 10 + (1 # 2))
  else - Qfloor (- x * 10 + (1 # 2)).

(** The decimal [d.d] with [t] tenths. *)
Definition decimal1 (t : Z) : Q := t # 10.

(** [x.toFixed(1)] returns the string of a decimal with one fractional
    digit ([NaN] and [Infinity] for these); it is held as the number it
    denotes, which [parseFloat] reads back. *)
Definition toFixed1 (a : jsnum) : jsnum :=
  match a with
  | Fin x => Fin (decimal1 (round1 x))
  | other => other
  end.

Definition parseFloat (a : jsnum) : jsnum := a.

(** [Math.ceil] *)
Definition Math_ceil (a : jsnum) : jsnum :=
  match a with
  | Fin x => of_Z (Qceiling x)
  | other => other
  end.

(** [a > b]; any comparison with NaN is false. *)
Definition gt (a b : jsnum) : bool :=
  match a, b with
  | Fin x, Fin y => negb (Qle_bool x y)
  | _, _ => false
  end.

(** The value of a number as a non-negative integer, when it is one. *)
Definition as_nat (a : jsnum) : option nat :=
  match a with
  | Fin x =>
      let r := Qred x in
      if Pos.eqb (Qden r) 1 && Z.leb 0 (Qnum r) then Some (Z.to_nat (Qnum r))
      else None
  | _ => None
  end.

(** The value of a number as an integer, when it is one. *)
Definition as_Z (a : jsnum) : option Z :=
  match a with
  | Fin x =>
      let r := Qred x in
      if Pos.eqb (Qden r) 1 then Some (Qnum r) else None
  | _ => None
  end.

(** *** Characters *)

Definition code (c : ascii) : N := N_of_ascii c.

(** StrWhiteSpaceChar: TAB, LF, VT, FF, CR, SP and NBSP. *)
Definition is_ws (c : ascii) : bool :=
  let n := code c in
  ((9 <=? n) && (n <=? 13) || (n =? 32) || (n =? 160))%N.

(** The value of [c] as a digit of the given radix. *)
Definition digit_of (radix : N) (c : ascii) : option N :=
  let n := code c in
  let v :=
    if ((48 <=? n) && (n <=? 57))%N then Some (n - 48)%N
    else if ((97 <=? n) && (n <=? 122))%N then Some (n - 87)%N
    else if ((65 <=? n) && (n <=? 90))%N then Some (n - 55)%N
    else None in
  match v with
  | Some d => if (d <? radix)%N then Some d else None
  | None => None
  end.

Fixpoint drop_ws (cs : list ascii) : list ascii :=
  match cs with
  | c :: r => if is_ws c then drop_ws r else cs
  | [] => []
  end.

Definition trim (cs : list ascii) : list ascii :=
  rev (drop_ws (rev (drop_ws cs))).

(** The longest prefix of [cs] made of digits of the radix, as digit
    values, and what follows it. *)
Fixpoint span_digits (radix : N) (cs : list ascii) : list N * list ascii :=
  match cs with
  | c :: r =>
      match digit_of radix c with
      | Some d => let '(ds, rest) := span_digits radix r in (d :: ds, rest)
      | None => ([], cs)
      end
  | [] => ([], [])
  end.

Definition digits_value (radix : N) (ds : list N) : Z :=
  fold_left (fun acc d => acc * Z.of_N radix + Z.of_N d) ds 0.

(** An optional sign: whether it is a minus, and what follows it. *)
Definition strip_sign (cs : list ascii) : bool * list ascii :=
  match cs with
  | c :: r =>
      if Ascii.eqb c "-" then (true, r)
      else if Ascii.eqb c "+" then (false, r)
      else (false, cs)
  | [] => (false, [])
  end.

Definition signed (neg : bool) (z : Z) : Z := if neg then - z else z.

(** The radix a prefix [0x], [0o] or [0b] announces, in either case. *)
Definition radix_letter (c : ascii) : option N :=
  if Ascii.eqb c "x" || Ascii.eqb c "X" then Some 16%N
  else if Ascii.eqb c "o" || Ascii.eqb c "O" then Some 8%N
  else if Ascii.eqb c "b" || Ascii.eqb c "B" then Some 2%N
  else None.

(** *** [parseInt(string)], no radix argument *)

Definition parseInt_chars (cs : list ascii) : jsnum :=
  let '(neg, s) := strip_sign (drop_ws cs) in
  let '(radix, s) :=
    match s with
    | c0 :: c1 :: r =>
        if Ascii.eqb c0 "0" && (Ascii.eqb c1 "x" || Ascii.eqb c1 "X")
        then (16%N, r) else (10%N, s)
    | _ => (10%N, s)
    end in
  match span_digits radix s with
  | ([], _) => NaN
  | (ds, _) => of_Z (signed neg (digits_value radix ds))
  end.

(** *** [Number(string)]: StringToNumber *)

(** A literal in one radix: digits only, at least one. *)
Definition radix_literal (radix : N) (cs : list ascii) : jsnum :=
  match span_digits radix cs with
  | (d :: ds, []) => of_Z (digits_value radix (d :: ds))
  | _ => NaN
  end.

(** ExponentPart, optional: [e] or [E], an optional sign, digits. *)
Definition exponent_part (cs : list ascii) : option Z :=
  match cs with
  | [] => Some 0
  | c :: r =>
      if Ascii.eqb c "e" || Ascii.eqb c "E" then
        let '(neg, s) := strip_sign r in
        match span_digits 10 s with
        | (d :: ds, []) => Some (signed neg (digits_value 10 (d :: ds)))
        | _ => None
        end
      else None
  end.

(** StrUnsignedDecimalLiteral other than [Infinity]:
    digits, an optional fraction, an optional exponent. *)
Definition decimal_literal (cs : list ascii) : option Q :=
  let '(ip, r1) := span_digits 10 cs in
  let '(fp, r2) :=
    match r1 with
    | c :: t => if Ascii.eqb c "." then span_digits 10 t else ([], r1)
    | [] => ([], [])
    end in
  if bool_decide (ip = []) && bool_decide (fp = []) then None
  else
    match exponent_part r2 with
    | Some e =>
        Some (inject_Z (digits_value 10 (ip ++ fp))
              * Qpower 10 (e - Z.of_nat (length fp)))%Q
    | None => None
    end.

Definition Infinity_chars : list ascii :=
  list_ascii_of_string "Infinity".

(** StrDecimalLiteral: an optional sign, [Infinity] or a decimal; the
    value is held in lowest terms. *)
Definition signed_decimal (cs : list ascii) : jsnum :=
  let '(neg, u) := strip_sign cs in
  if bool_decide (u = Infinity_chars) then Inf
  else
    match decimal_literal u with
    | Some q => Fin (Qred (if neg then - q else q))
    | None => NaN
    end.

Definition ToNumber_chars (cs : list ascii) : jsnum :=
  match trim cs with
  | [] => of_Z 0
  | [c] => signed_decimal [c]
  | c0 :: c1 :: r =>
      match (if Ascii.eqb c0 "0" then radix_letter c1 else None) with
      | Some radix => radix_literal radix r
      | None => signed_decimal (c0 :: c1 :: r)
      end
  end.

(** *** Values of query parameters

    A query parameter is a string when present; a destructuring default
    replaces an absent one by a number literal, always an integer here. *)

Inductive jsval :=
  | Str (s : string)
  | Int (z : Z).

Definition or_default (p : option string) (d : Z) : jsval :=
  match p with
  | Some s => Str s
  | None => Int d
  end.

(** The implicit conversion of an operand of [-], [*] or [/]. *)
Definition ToNumber (v : jsval) : jsnum :=
  match v with
  | Str s => ToNumber_chars (list_ascii_of_string s)
  | Int z => of_Z z
  end.

(** [parseInt(v)]: the argument is first converted to a string; an
    integer prints as its decimal digits and parses back to itself. *)
Definition parseInt (v : jsval) : jsnum :=
  match v with
  | Str s => parseInt_chars (list_ascii_of_string s)
  | Int z => of_Z z
  end.

End JS.

Import JS.


(** ** Documents and collections

    Modelled from the spec: the Mongoose models ([models/product] and the
    like) and the query engine behind them are not part of the sources.
    A document is a finite map from field names to values; an absent
    field reads as [null].  Timestamps are numbers of milliseconds. *)

Inductive value :=
  | VNull
  | VBool (b : bool)
  | VNum (n : Z)
  | VStr (s : string).

#[global] Instance value_eq_dec : EqDecision value.
Proof. solve_decision. Defined.

Abbreviation doc := (gmap string value).

Definition field (d : doc) (k : string) : value := default VNull (d !! k).

(** The order of values of different types: null, numbers, strings,
    booleans. *)
Definition value_rank (v : value) : Z :=
  match v with
  | VNull => 0
  | VNum _ => 1
  | VStr _ => 2
  | VBool _ => 3
  end.

Definition value_compare (a b : value) : comparison :=
  match a, b with
  | VNum x, VNum y => Z.compare x y
  | VStr x, VStr y => String.compare x y
  | VBool x, VBool y => Bool.compare x y
  | _, _ => Z.compare (value_rank a) (value_rank b)
  end.

(** One condition of a query object: [{k: v}] or [{k: {$gte: v}}]. *)
Inductive cond :=
  | CEq (v : value)
  | CGte (v : value).

Definition holds (c : cond) (x : value) : Prop :=
  match c with
  | CEq v => x = v
  | CGte v => value_rank x = value_rank v ∧ value_compare x v ≠ Lt
  end.

#[global] Instance holds_dec c x : Decision (holds c x).
Proof. destruct c; simpl; apply _. Defined.

(** A document matches a query object when every condition holds. *)
Definition matches (q : gmap string cond) (d : doc) : Prop :=
  map_Forall (fun k c => holds c (field d k)) q.

#[global] Instance matches_dec q d : Decision (matches q d).
Proof. unfold matches. apply _. Defined.

(** *** Sorting *)

Inductive direction := Asc | Desc.

(** Mongoose accepts [1] and [-1] as the direction of a sort key. *)
Definition sort_direction (n : jsnum) : option direction :=
  match as_Z n with
  | Some 1 => Some Asc
  | Some (-1) => Some Desc
  | _ => None
  end.

(** The order of two documents under a sort specification, key by key. *)
Fixpoint doc_compare (spec : list (string * direction)) (a b : doc) : comparison :=
  match spec with
  | [] => Eq
  | (k, dir) :: rest =>
      match value_compare (field a k) (field b k), dir with
      | Eq, _ => doc_compare rest a b
      | c, Asc => c
      | c, Desc => CompOpp c
      end
  end.

(** Insertion before the first element that is not smaller. *)
Fixpoint insert_by {A} (cmp : A -> A -> comparison) (x : A) (l : list A) : list A :=
  match l with
  | [] => [x]
  | y :: r =>
      match cmp x y with
      | Gt => y :: insert_by cmp x r
      | _ => x :: l
      end
  end.

(** A stable sort; the engine leaves the order of ties open, this is one
    such order. *)
Definition sort_by {A} (cmp : A -> A -> comparison) (l : list A) : list A :=
  foldr (insert_by cmp) [] l.

Definition sort_docs (spec : list (string * direction)) (l : list doc) : list doc :=
  sort_by (doc_compare spec) l.

(** [.select("-a -b")]: the listed fields are left out. *)
Definition select (excluded : list string) (d : doc) : doc :=
  foldr delete d excluded.

(** [.limit(n)]: zero means no limit. *)
Definition limit_docs {A} (n : nat) (l : list A) : list A :=
  match n with
  | O => l
  | _ => take n l
  end.

(** *** Grouping: the [$group] stage

    One pass over the documents; the row of a key is created when the key
    is first met, and updated by every document of the key. *)

Fixpoint group_step {R} (key : value) (new : R) (upd : R -> R)
    (rows : list (value * R)) : list (value * R) :=
  match rows with
  | [] => [(key, upd new)]
  | (k, r) :: rest =>
      if decide (k = key) then (k, upd r) :: rest
      else (k, r) :: group_step key new upd rest
  end.

Definition group {R} (key : doc -> value) (new : R) (upd : doc -> R -> R)
    (docs : list doc) : list (value * R) :=
  fold_left (fun rows d => group_step (key d) new (upd d) rows) docs [].

(** [{ $sum: { $cond: [{ $eq: ["$k", v] }, 1, 0] } }] *)
Definition sum_cond (d : doc) (k : string) (v : value) (acc : nat) : nat :=
  (acc + if decide (field d k = v) then 1 else 0)%nat.

(** ** The world a request runs in *)

Inductive Model := Product | Shop | Engineer | Ads | User.

Record World := {
  products : list doc;
  shops : list doc;
  engineers : list doc;
  ads : list doc;
  users : list doc;
  (** midnight of the current day, server-local time *)
  today : Z;
  (** the exception, if any, raised by the n-th awaited database call *)
  fault : nat -> option string;
}.

Definition collection (w : World) (m : Model) : list doc :=
  match m with
  | Product => products w
  | Shop => shops w
  | Engineer => engineers w
  | Ads => ads w
  | User => users w
  end.

(** ** Exceptions and awaited calls *)

Inductive outcome (A : Type) :=
  | Threw (msg : string)
  | Returned (a : A) (calls : nat).
Arguments Threw {A} msg.
Arguments Returned {A} a calls.

(** A computation, given the number of database calls awaited so far. *)
Definition M (A : Type) : Type := nat -> outcome A.

#[global] Instance M_ret : MRet M := fun A a n => Returned a n.

#[global] Instance M_bind : MBind M := fun A B f m n =>
  match m n with
  | Threw e => Threw e
  | Returned a n' => f a n'
  end.

Definition throw {A} (msg : string) : M A := fun _ => Threw msg.

(** Awaiting a database call: it fails if the world says so. *)
Definition await {A} (w : World) (a : A) : M A := fun n =>
  match fault w n with
  | Some e => Threw e
  | None => Returned a (S n)
  end.

(** *** The calls of a model

    Modelled from the spec: [countDocuments], [find] and [aggregate] are
    calls of the Mongoose models, which the sources only import.  A count
    is exact; a find filters, sorts, skips and limits, in this order. *)

Definition countDocuments (w : World) (m : Model) (q : gmap string cond) : M nat :=
  await w (length (filter (matches q) (collection w m))).

(** The sort object given to [.sort]: every direction must be accepted. *)
Fixpoint check_sort (sort : list (string * jsnum)) : option (list (string * direction)) :=
  match sort with
  | [] => Some []
  | (k, n) :: rest =>
      match sort_direction n, check_sort rest with
      | Some dir, Some spec => Some ((k, dir) :: spec)
      | _, _ => None
      end
  end.

(** The limit as the driver takes it: a negative one by its magnitude. *)
Definition cast_limit (n : jsnum) : option nat :=
  match as_Z n with
  | Some z => Some (Z.abs_nat z)
  | None => None
  end.

(** [Model.find(q).sort(sort).skip(skip).limit(limit).select(excluded)].
    A sort direction other than [1] or [-1], a skip that is not a
    non-negative integer and a limit that is not an integer are rejected
    before any document is read.  [populate] only replaces a reference by
    the document it names and is left out. *)
Definition find (w : World) (m : Model) (q : gmap string cond)
    (sort : list (string * jsnum)) (skip limit : jsnum)
    (excluded : list string) : M (list doc) :=
  match check_sort sort with
  | None => throw "Invalid sort value"
  | Some spec =>
      match as_nat skip with
      | None => throw "Invalid skip value"
      | Some s =>
          match cast_limit limit with
          | None => throw "Invalid limit value"
          | Some l =>
              await w (select excluded <$>
                limit_docs l (drop s (sort_docs spec
                  (filter (matches q) (collection w m)))))
          end
      end
  end.

(** [obj[k] = v] on an object literal held as an association list, in
    insertion order.  Assigning a number to [__proto__] adds no
    property. *)
Fixpoint assoc_set {A} (k : string) (v : A) (o : list (string * A)) : list (string * A) :=
  match o with
  | [] => [(k, v)]
  | (k', v') :: rest =>
      if decide (k' = k) then (k, v) :: rest else (k', v') :: assoc_set k v rest
  end.

Definition set_property {A} (k : string) (v : A) (o : list (string * A)) : list (string * A) :=
  if decide (k = "__proto__") then o else assoc_set k v o.

(** ** Requests and responses *)

(** [req.query]: every parameter is a string when present. *)
Record Request := {
  page : option string;
  limit : option string;
  sortBy : option string;
  sortOrder : option string;
  verified : option string;
  active : option string;
}.

Record Card := {
  count : nat;
  title : string;
  subtitle : string;
  icon : string;
  color : string;
}.

Record Cards (A : Type) := {
  pendingApprovals : A;
  totalEngineers : A;
  verifiedShops : A;
  activeAds : A;
}.
Arguments pendingApprovals {A} _.
Arguments totalEngineers {A} _.
Arguments verifiedShops {A} _.
Arguments activeAds {A} _.

Record Pagination := {
  currentPage : jsnum;
  totalPages : jsnum;
  totalItems : nat;
  itemsPerPage : jsnum;
}.

(** A row of the category aggregation, after [$project]. *)
Record CategoryStat := {
  cat_id : value;
  category : value;
  cat_count : nat;
  cat_pending : nat;
  cat_approved : nat;
  cat_rejected : nat;
  cat_approvalRate : jsnum;
}.

(** A row of the regional aggregation. *)
Record RegionStat := {
  reg_id : value;
  reg_products : nat;
  reg_pending : nat;
}.

(** The computed part of the dashboard payload; the literal placeholders
    of the source (growth figures, weekly and monthly counts, quality
    scores, system health) and the two timestamps are left out. *)
Record Stats := {
  dashboardCards : Cards Card;
  ov_totalUsers : nat;
  ov_totalProducts : nat * nat * nat * nat;   (* count, pending, approved, rejected *)
  ov_totalShops : nat * nat;                  (* count, verified *)
  ov_totalEngineers : nat * nat * nat;        (* count, verified, available *)
  act_registrationsToday : nat;
  act_submissionsToday : nat * nat;           (* today, pendingApproval *)
  act_approvalsToday : nat;
  act_rejectionsToday : nat;
  perf_overall : jsnum;
  perf_byCategory : gmap string jsnum;
  perf_popularCategories : list (value * nat * jsnum);
  reg_byGovernorate : list (value * nat * nat);
  reg_topRegions : list (value * string);
}.

Inductive Data :=
  | CardsData (c : Cards Card)
  | CountsData (c : Cards nat)
  | ListData (key : string) (items : list doc) (pagination : Pagination)
  | StatsData (s : Stats).

(** What [res.status(code).json(envelope)] sends. *)
Record Response := {
  http_status : nat;
  status : string;
  message : string;
  data : option Data;
  error : option string;
}.

Definition success (msg : string) (d : Data) : Response :=
  {| http_status := 200; status := "success"; message := msg;
     data := Some d; error := None |}.

Definition failure (msg : string) (e : string) : Response :=
  {| http_status := 500; status := "error"; message := msg;
     data := None; error := Some e |}.

(** [try { body } catch (error) { handler(error.message) }] *)
Definition try_catch (body : M Response) (handler : string -> Response) : Response :=
  match body O with
  | Returned r _ => r
  | Threw e => handler e
  end.

(** ** The four headline counts *)

Definition pending_query : gmap string cond := {[ "status" := CEq (VStr "pending") ]}.
Definition verified_shops_query : gmap string cond :=
  {[ "isVerified" := CEq (VBool true); "isActive" := CEq (VBool true) ]}.
Definition active_ads_query : gmap string cond := {[ "active" := CEq (VBool true) ]}.

Definition cards_of (c : Cards nat) : Cards Card :=
  {| pendingApprovals :=
       {| count := pendingApprovals c; title := "Pending Approvals";
          subtitle := "Products awaiting approval";
          icon := "file-cabinet"; color := "orange" |};
     totalEngineers :=
       {| count := totalEngineers c; title := "Total Engineers";
          subtitle := "Engineers registered in the system";
          icon := "engineer"; color := "blue" |};
     verifiedShops :=
       {| count := verifiedShops c; title := "Verified Shops";
          subtitle := "Verified and certified shops";
          icon := "storefront"; color := "green" |};
     activeAds :=
       {| count := activeAds c; title := "Active Ads";
          subtitle := "Currently active advertisements";
          icon := "megaphone"; color := "purple" |} |}.

Definition headline_counts (w : World) : M (Cards nat) :=
  pendingApprovals ← countDocuments w Product pending_query;
  totalEngineers ← countDocuments w Engineer ∅;
  verifiedShops ← countDocuments w Shop verified_shops_query;
  activeAds ← countDocuments w Ads active_ads_query;
  mret {| pendingApprovals := pendingApprovals; totalEngineers := totalEngineers;
          verifiedShops := verifiedShops; activeAds := activeAds |}.

(** [adminStatsController.getDashboardCards] *)
Definition getDashboardCards (w : World) (req : Request) : Response :=
  try_catch
    (c ← headline_counts w;
     mret (success "Dashboard cards data retrieved successfully" (CardsData (cards_of c))))
    (failure "Error retrieving dashboard cards data").

(** [dashboardController.getDashboardCounts] *)
Definition getDashboardCounts (w : World) (req : Request) : Response :=
  try_catch
    (c ← headline_counts w;
     mret (success "Dashboard counts retrieved successfully" (CardsData (cards_of c))))
    (failure "Error retrieving dashboard counts").

(** [dashboardController.getSimpleCounts] *)
Definition getSimpleCounts (w : World) (req : Request) : Response :=
  try_catch
    (c ← headline_counts w;
     mret (success "Counts retrieved successfully" (CountsData c)))
    (failure "Error retrieving counts").

(** ** The paginated listers *)

(** The pagination block, the same in the four listers. *)
Definition pagination (page limit : jsval) (total : nat) : Pagination :=
  {| currentPage := parseInt page;
     totalPages := Math_ceil (div (of_nat total) (ToNumber limit));
     totalItems := total;
     itemsPerPage := parseInt limit |}.

(** [query.k = (param === "true")], when the parameter is defined. *)
Definition boolean_filter (k : string) (param : option string)
    (query : gmap string cond) : gmap string cond :=
  match param with
  | Some s => <[ k := CEq (VBool (bool_decide (s = "true"))) ]> query
  | None => query
  end.

(** [adminStatsController.getPendingApprovals] *)
Definition getPendingApprovals (w : World) (req : Request) : Response :=
  try_catch
    (let page := or_default (page req) 1 in
     let limit := or_default (limit req) 10 in
     let sortBy := default "createdAt" (sortBy req) in
     let sortOrder := or_default (sortOrder req) (-1) in
     let skip := mul (sub (ToNumber page) (of_Z 1)) (ToNumber limit) in
     let sort := set_property sortBy (parseInt sortOrder) [] in
     pendingProducts ← find w Product pending_query sort skip (parseInt limit) ["__v"];
     totalPending ← countDocuments w Product pending_query;
     mret (success "Pending approvals retrieved successfully"
             (ListData "products" pendingProducts (pagination page limit totalPending))))
    (failure "Error retrieving pending approvals").

(** [adminStatsController.getEngineersList] *)
Definition getEngineersList (w : World) (req : Request) : Response :=
  try_catch
    (let page := or_default (page req) 1 in
     let limit := or_default (limit req) 10 in
     let sortBy := default "createdAt" (sortBy req) in
     let sortOrder := or_default (sortOrder req) (-1) in
     let skip := mul (sub (ToNumber page) (of_Z 1)) (ToNumber limit) in
     let sort := set_property sortBy (parseInt sortOrder) [] in
     let query := boolean_filter "isVerified" (verified req) ∅ in
     engineers ← find w Engineer query sort skip (parseInt limit) ["notes"; "__v"];
     totalEngineers ← countDocuments w Engineer query;
     mret (success "Engineers list retrieved successfully"
             (ListData "engineers" engineers (pagination page limit totalEngineers))))
    (failure "Error retrieving engineers list").

(** [adminStatsController.getShopsList] *)
Definition getShopsList (w : World) (req : Request) : Response :=
  try_catch
    (let page := or_default (page req) 1 in
     let limit := or_default (limit req) 10 in
     let sortBy := default "createdAt" (sortBy req) in
     let sortOrder := or_default (sortOrder req) (-1) in
     let skip := mul (sub (ToNumber page) (of_Z 1)) (ToNumber limit) in
     let sort := set_property sortBy (parseInt sortOrder) [] in
     let query := boolean_filter "isVerified" (verified req)
                    {[ "isActive" := CEq (VBool true) ]} in
     shops ← find w Shop query sort skip (parseInt limit)
               ["notes"; "verificationDocuments"; "__v"];
     totalShops ← countDocuments w Shop query;
     mret (success "Shops list retrieved successfully"
             (ListData "shops" shops (pagination page limit totalShops))))
    (failure "Error retrieving shops list").

(** [adminStatsController.getAdsList] *)
Definition getAdsList (w : World) (req : Request) : Response :=
  try_catch
    (let page := or_default (page req) 1 in
     let limit := or_default (limit req) 10 in
     let sortBy := default "createdAt" (sortBy req) in
     let sortOrder := or_default (sortOrder req) (-1) in
     let skip := mul (sub (ToNumber page) (of_Z 1)) (ToNumber limit) in
     let sort := set_property sortBy (parseInt sortOrder) [] in
     let query := boolean_filter "active" (active req) ∅ in
     ads ← find w Ads query sort skip (parseInt limit) ["__v"];
     totalAds ← countDocuments w Ads query;
     mret (success "Ads list retrieved successfully"
             (ListData "ads" ads (pagination page limit totalAds))))
    (failure "Error retrieving ads list").

(** ** The dashboard statistics *)

(** [approvalRate] and [rejectionRate]: the share of [part] in [total],
    in percent with one decimal, or the number 0 without products. *)
Definition rate (total part : nat) : jsnum :=
  if gt (of_nat total) (of_Z 0)
  then toFixed1 (mul (div (of_nat part) (of_nat total)) (of_Z 100))
  else of_Z 0.

Definition approvalRate (totalProducts approvedProducts : nat) : jsnum :=
  rate totalProducts approvedProducts.

Definition rejectionRate (totalProducts rejectedProducts : nat) : jsnum :=
  rate totalProducts rejectedProducts.

(** The accumulators of the category [$group]: count, pending, approved,
    rejected. *)
Definition category_acc : Type := nat * nat * nat * nat.

Definition category_upd (d : doc) (a : category_acc) : category_acc :=
  let '(count, pending, approved, rejected) := a in
  (S count,
   sum_cond d "status" (VStr "pending") pending,
   sum_cond d "status" (VStr "approved") approved,
   sum_cond d "status" (VStr "rejected") rejected).

Definition category_project (row : value * category_acc) : CategoryStat :=
  let '(id, (count, pending, approved, rejected)) := row in
  {| cat_id := id; category := id; cat_count := count;
     cat_pending := pending; cat_approved := approved; cat_rejected := rejected;
     cat_approvalRate :=
       mul (div (of_nat approved) (of_nat (Nat.max count 1))) (of_Z 100) |}.

(** The category pipeline: [$group] by type, [$project], [$sort] by count,
    descending. *)
Definition categoryStats (docs : list doc) : list CategoryStat :=
  sort_by (fun a b => CompOpp (Nat.compare (cat_count a) (cat_count b)))
    (category_project <$>
       group (fun d => field d "type") (0, 0, 0, 0)%nat category_upd docs).

Definition region_acc : Type := nat * nat.

Definition region_upd (d : doc) (a : region_acc) : region_acc :=
  let '(products, pending) := a in
  (S products, sum_cond d "status" (VStr "pending") pending).

Definition region_row (row : value * region_acc) : RegionStat :=
  let '(id, (products, pending)) := row in
  {| reg_id := id; reg_products := products; reg_pending := pending |}.

(** The regional pipeline: [$group] by governorate, [$sort] by products,
    descending, [$limit] 10. *)
Definition regionalStats (docs : list doc) : list RegionStat :=
  take 10
    (sort_by (fun a b => CompOpp (Nat.compare (reg_products a) (reg_products b)))
       (region_row <$>
          group (fun d => field d "governorate") (0, 0)%nat region_upd docs)).

(** The property name a value converts to, as in [acc[cat.category]]. *)
Definition property_key (v : value) : string :=
  match v with
  | VNull => "null"
  | VBool true => "true"
  | VBool false => "false"
  | VNum n => pretty n
  | VStr s => s
  end.

(** [acc[k] = v] on the accumulator of [reduce]. *)
Definition set_key (k : string) (v : jsnum) (acc : gmap string jsnum) : gmap string jsnum :=
  if decide (k = "__proto__") then acc else <[ k := v ]> acc.

Definition byCategory (stats : list CategoryStat) : gmap string jsnum :=
  fold_left
    (fun acc cat =>
       set_key (property_key (category cat))
         (parseFloat (toFixed1 (cat_approvalRate cat))) acc)
    stats ∅.

Definition popularCategories (stats : list CategoryStat) (totalProducts : nat)
    : list (value * nat * jsnum) :=
  (fun cat =>
     (category cat, cat_count cat,
      parseFloat (toFixed1
        (mul (div (of_nat (cat_count cat)) (of_nat totalProducts)) (of_Z 100)))))
  <$> stats.

Definition byGovernorate (stats : list RegionStat) : list (value * nat * nat) :=
  (fun region => (reg_id region, reg_products region, reg_pending region)) <$> stats.

Definition topRegions (stats : list RegionStat) : list (value * string) :=
  (fun region =>
     (reg_id region,
      if (50 <? reg_products region)%nat then "high"
      else if (20 <? reg_products region)%nat then "medium"
      else "low"))
  <$> take 5 stats.

Definition since (k : string) (t : Z) : gmap string cond := {[ k := CGte (VNum t) ]}.

(** [adminStatsController.getAdminDashboardStats] *)
Definition getAdminDashboardStats (w : World) (req : Request) : Response :=
  try_catch
    (pendingApprovals ← countDocuments w Product pending_query;
     totalEngineers ← countDocuments w Engineer ∅;
     verifiedShops ← countDocuments w Shop verified_shops_query;
     activeAds ← countDocuments w Ads active_ads_query;
     totalProducts ← countDocuments w Product ∅;
     approvedProducts ← countDocuments w Product {[ "status" := CEq (VStr "approved") ]};
     rejectedProducts ← countDocuments w Product {[ "status" := CEq (VStr "rejected") ]};
     totalShops ← countDocuments w Shop ∅;
     totalUsers ← countDocuments w User ∅;
     activeEngineers ← countDocuments w Engineer {[ "isActive" := CEq (VBool true) ]};
     verifiedEngineers ← countDocuments w Engineer {[ "isVerified" := CEq (VBool true) ]};
     recentRegistrations ← countDocuments w User (since "createdAt" (today w));
     recentProductSubmissions ← countDocuments w Product (since "createdAt" (today w));
     recentApprovals ← countDocuments w Product
       (<[ "status" := CEq (VStr "approved") ]> (since "updatedAt" (today w)));
     recentRejections ← countDocuments w Product
       (<[ "status" := CEq (VStr "rejected") ]> (since "updatedAt" (today w)));
     let approvalRate := approvalRate totalProducts approvedProducts in
     let rejectionRate := rejectionRate totalProducts rejectedProducts in
     categoryStats ← await w (categoryStats (products w));
     regionalStats ← await w (regionalStats (products w));
     mret (success "Dashboard statistics retrieved successfully"
       (StatsData
          {| dashboardCards :=
               cards_of {| pendingApprovals := pendingApprovals;
                           totalEngineers := totalEngineers;
                           verifiedShops := verifiedShops;
                           activeAds := activeAds |};
             ov_totalUsers := totalUsers;
             ov_totalProducts :=
               (totalProducts, pendingApprovals, approvedProducts, rejectedProducts);
             ov_totalShops := (totalShops, verifiedShops);
             ov_totalEngineers := (totalEngineers, verifiedEngineers, activeEngineers);
             act_registrationsToday := recentRegistrations;
             act_submissionsToday := (recentProductSubmissions, pendingApprovals);
             act_approvalsToday := recentApprovals;
             act_rejectionsToday := recentRejections;
             perf_overall := parseFloat approvalRate;
             perf_byCategory := byCategory categoryStats;
             perf_popularCategories := popularCategories categoryStats totalProducts;
             reg_byGovernorate := byGovernorate regionalStats;
             reg_topRegions := topRegions regionalStats |})))
    (failure "Error retrieving statistics").

(** ** The endpoints, by name *)

Inductive Lister := PendingApprovals | EngineersList | ShopsList | AdsList.

Inductive Endpoint :=
  | AdminDashboardStats
  | DashboardCards
  | ListOf (l : Lister)
  | DashboardCounts
  | SimpleCounts.

Definition run_lister (l : Lister) : World -> Request -> Response :=
  match l with
  | PendingApprovals => getPendingApprovals
  | EngineersList => getEngineersList
  | ShopsList => getShopsList
  | AdsList => getAdsList
  end.

Definition handle (ep : Endpoint) : World -> Request -> Response :=
  match ep with
  | AdminDashboardStats => getAdminDashboardStats
  | DashboardCards => getDashboardCards
  | ListOf l => run_lister l
  | DashboardCounts => getDashboardCounts
  | SimpleCounts => getSimpleCounts
  end.


(** ** Reading a handler: what each lister is made of *)

Definition lister_model (l : Lister) : Model :=
  match l with
  | PendingApprovals => Product
  | EngineersList => Engineer
  | ShopsList => Shop
  | AdsList => Ads
  end.

(** The query object before the optional boolean filter. *)
Definition base_query (l : Lister) : gmap string cond :=
  match l with
  | PendingApprovals => pending_query
  | ShopsList => {[ "isActive" := CEq (VBool true) ]}
  | EngineersList | AdsList => ∅
  end.

(** The optional boolean parameter of a lister and the field it filters. *)
Definition flag_param (l : Lister) (req : Request) : option string :=
  match l with
  | PendingApprovals => None
  | EngineersList | ShopsList => verified req
  | AdsList => active req
  end.

Definition flag_field (l : Lister) : string :=
  match l with
  | AdsList => "active"
  | _ => "isVerified"
  end.

Definition lister_query (l : Lister) (req : Request) : gmap string cond :=
  boolean_filter (flag_field l) (flag_param l req) (base_query l).

Definition lister_excluded (l : Lister) : list string :=
  match l with
  | PendingApprovals | AdsList => ["__v"]
  | EngineersList => ["notes"; "__v"]
  | ShopsList => ["notes"; "verificationDocuments"; "__v"]
  end.

Definition lister_key (l : Lister) : string :=
  match l with
  | PendingApprovals => "products"
  | EngineersList => "engineers"
  | ShopsList => "shops"
  | AdsList => "ads"
  end.

Definition success_message (ep : Endpoint) : string :=
  match ep with
  | AdminDashboardStats => "Dashboard statistics retrieved successfully"
  | DashboardCards => "Dashboard cards data retrieved successfully"
  | ListOf PendingApprovals => "Pending approvals retrieved successfully"
  | ListOf EngineersList => "Engineers list retrieved successfully"
  | ListOf ShopsList => "Shops list retrieved successfully"
  | ListOf AdsList => "Ads list retrieved successfully"
  | DashboardCounts => "Dashboard counts retrieved successfully"
  | SimpleCounts => "Counts retrieved successfully"
  end.

Definition error_message (ep : Endpoint) : string :=
  match ep with
  | AdminDashboardStats => "Error retrieving statistics"
  | DashboardCards => "Error retrieving dashboard cards data"
  | ListOf PendingApprovals => "Error retrieving pending approvals"
  | ListOf EngineersList => "Error retrieving engineers list"
  | ListOf ShopsList => "Error retrieving shops list"
  | ListOf AdsList => "Error retrieving ads list"
  | DashboardCounts => "Error retrieving dashboard counts"
  | SimpleCounts => "Error retrieving counts"
  end.

(** The documents a lister pages through: filtered, then sorted. *)
Definition listed (l : Lister) (w : World) (req : Request)
    (spec : list (string * direction)) : list doc :=
  sort_docs spec (filter (matches (lister_query l req)) (collection w (lister_model l))).

(** The arguments a lister hands to [find]. *)
Definition req_page (req : Request) : jsval := or_default (page req) 1.
Definition req_limit (req : Request) : jsval := or_default (limit req) 10.
Definition req_skip (req : Request) : jsnum :=
  mul (sub (ToNumber (req_page req)) (of_Z 1)) (ToNumber (req_limit req)).
Definition req_sort (req : Request) : list (string * jsnum) :=
  set_property (default "createdAt" (sortBy req))
    (parseInt (or_default (sortOrder req) (-1))) [].




(** The number of database calls a handler awaits when none fails. *)
Definition calls (ep : Endpoint) : nat :=
  match ep with
  | AdminDashboardStats => 17
  | ListOf _ => 2
  | DashboardCards | DashboardCounts | SimpleCounts => 4
  end.


(** The four counts a response of the aggregator reports. *)
Definition reported_counts (r : Response) : option (Cards nat) :=
  match data r with
  | Some (CardsData c) | Some (StatsData {| dashboardCards := c |}) =>
      Some {| pendingApprovals := count (pendingApprovals c);
              totalEngineers := count (totalEngineers c);
              verifiedShops := count (verifiedShops c);
              activeAds := count (activeAds c) |}
  | Some (CountsData c) => Some c
  | _ => None
  end.

(** The pagination block and the items of a lister's response. *)
Definition listing (r : Response) : option (list doc * Pagination) :=
  match data r with
  | Some (ListData _ items p) => Some (items, p)
  | _ => None
  end.

(** The two rates as [getAdminDashboardStats] computes them over the
    products. *)
Definition with_status (s : string) : gmap string cond := {[ "status" := CEq (VStr s) ]}.

Definition product_rates (docs : list doc) : jsnum * jsnum :=
  let totalProducts := length docs in
  let approvedProducts := length (filter (matches (with_status "approved")) docs) in
  let rejectedProducts := length (filter (matches (with_status "rejected")) docs) in
  (approvalRate totalProducts approvedProducts,
   rejectionRate totalProducts rejectedProducts).

(** The card of the dashboard a lister corresponds to, and the
    parameters under which the lister applies the filter of the card. *)
Definition card_count (l : Lister) (c : Cards nat) : nat :=
  match l with
  | PendingApprovals => pendingApprovals c
  | EngineersList => totalEngineers c
  | ShopsList => verifiedShops c
  | AdsList => activeAds c
  end.

Definition shares_filter (l : Lister) (req : Request) : Prop :=
  match l with
  | PendingApprovals => True
  | EngineersList => verified req = None
  | ShopsList => verified req = Some "true"
  | AdsList => active req = Some "true"
  end.

Definition is_aggregator (ep : Endpoint) : Prop :=
  match ep with
  | ListOf _ => False
  | _ => True
  end.

(** What the [verified] parameter asks of a document. *)
Definition verified_as (param : option string) (d : doc) : Prop :=
  match param with
  | None => True
  | Some s => field d "isVerified" = VBool (bool_decide (s = "true"))
  end.

#[global] Instance verified_as_dec param d : Decision (verified_as param d).
Proof. destruct param; simpl; apply _. Defined.

(** Two worlds with the same documents; their failures may differ. *)
Definition same_state (w w' : World) : Prop :=
  forall m, collection w m = collection w' m.

(** [t] tenths is the decimal with one fractional digit nearest to [x],
    the larger of two: [x - 0.05 < t / 10 <= x + 0.05]. *)
Definition nearest_tenth (t : Z) (x : Q) : Prop :=
  (x * 10 - (1 # 2) < inject_Z t)%Q /\ (inject_Z t <= x * 10 + (1 # 2))%Q.

(** [part / total * 100], exactly. *)
Definition percent (part total : nat) : Q :=
  (inject_Z (Z.of_nat part) / inject_Z (Z.of_nat total) * 100)%Q.

(** What the row of key [k] holds after the documents [pre] have been
    grouped: the accumulators updated by every document of the key. *)
Definition summary {R} (key : doc -> value) (new : R) (upd : doc -> R -> R)
    (k : value) (pre : list doc) : R :=
  fold_left (fun a d => upd d a) (filter (fun d => key d = k) pre) new.

(** [ks] lists, once each, the keys of the documents [pre]. *)
Definition keyed (key : doc -> value) (pre : list doc) (ks : list value) : Prop :=
  NoDup ks /\ forall k, k ∈ ks <-> exists d, d ∈ pre /\ key d = k.

(** The number of documents with a status. *)
Definition count_status (s : string) (docs : list doc) : nat :=
  length (filter (fun d => field d "status" = VStr s) docs).

(** The documents of a category. *)
Definition of_type (k : value) (docs : list doc) : list doc :=
  filter (fun d => field d "type" = k) docs.


(** ** Sample data *)

Definition product (id : Z) (status type governorate : string) (createdAt : Z) : doc :=
  {[ "_id" := VNum id; "status" := VStr status; "type" := VStr type;
     "governorate" := VStr governorate; "createdAt" := VNum createdAt;
     "updatedAt" := VNum createdAt; "__v" := VNum 0 ]}.

(** A world without failures. *)
Definition world_of (products shops engineers ads : list doc) : World :=
  {| products := products; shops := shops; engineers := engineers; ads := ads;
     users := []; today := 0; fault := fun _ => None |}.

Definition no_params : Request :=
  {| page := None; limit := None; sortBy := None; sortOrder := None;
     verified := None; active := None |}.





Definition shop (id : Z) (isVerified isActive : bool) (createdAt : Z) : doc :=
  {[ "_id" := VNum id; "isVerified" := VBool isVerified; "isActive" := VBool isActive;
     "createdAt" := VNum createdAt; "verificationDocuments" := VStr "licence";
     "notes" := VStr "internal"; "__v" := VNum 0 ]}.

Definition engineer (id : Z) (isVerified isActive : bool) (createdAt : Z) : doc :=
  {[ "_id" := VNum id; "isVerified" := VBool isVerified; "isActive" := VBool isActive;
     "createdAt" := VNum createdAt; "notes" := VStr "internal"; "__v" := VNum 0 ]}.

Definition ad (id : Z) (active : bool) (title : string) (createdAt : Z) : doc :=
  {[ "_id" := VNum id; "active" := VBool active; "title" := VStr title;
     "createdAt" := VNum createdAt; "__v" := VNum 0 ]}.

Definition marketplace : World :=
  world_of
    [product 1 "pending" "Panel" "Sanaa" 10; product 2 "approved" "Panel" "Aden" 20;
     product 3 "rejected" "Battery" "Sanaa" 30]
    [shop 1 true true 1; shop 2 true false 2; shop 3 false true 3; shop 4 false false 4]
    [engineer 1 true true 1; engineer 2 false true 2; engineer 3 false false 3]
    [ad 1 true "Inverters" 1; ad 2 false "Panels" 2].

Definition filtered (verified active : option string) : Request :=
  {| page := None; limit := None; sortBy := None; sortOrder := None;
     verified := verified; active := active |}.

Definition three_regions : World :=
  world_of
    [product 1 "pending" "Panel" "Sanaa" 10; product 2 "pending" "Panel" "Aden" 20;
     product 3 "pending" "Battery" "Taiz" 30] [] [] [].




(** Sixteen products: one approved, fifteen rejected, none pending. *)
Definition sixteen_decided : list doc :=
  product 0 "approved" "Panel" "Sanaa" 0 ::
  ((fun i => product (Z.of_nat i) "rejected" "Panel" "Sanaa" (Z.of_nat i)) <$> seq 1 15).

(** ** Further readings of the handlers *)

(** The documents of a governorate. *)
Definition of_governorate (k : value) (docs : list doc) : list doc :=
  filter (fun d => field d "governorate" = k) docs.



(** The number of documents that match a query, as [countDocuments]
    finds it. *)
Definition count_where (q : gmap string cond) (docs : list doc) : nat :=
  length (filter (matches q) docs).

(** The row of the category pipeline for the type [k]. *)
Definition category_row (k : value) (docs : list doc) : CategoryStat :=
  category_project
    (k, (length (of_type k docs), count_status "pending" (of_type k docs),
         count_status "approved" (of_type k docs),
         count_status "rejected" (of_type k docs))).

(** The payload of a response of [getAdminDashboardStats], if any. *)
Definition stats_of (r : Response) : option Stats :=
  match data r with
  | Some (StatsData s) => Some s
  | _ => None
  end.

(** * Properties *)

(** ** The coercions on some strings *)

Example parseInt_examples :
  parseInt (Str "10") = of_Z 10 /\ parseInt (Str "2.5") = of_Z 2 /\
  parseInt (Str " -0x1f") = of_Z (-31) /\ parseInt (Str "12px") = of_Z 12 /\
  parseInt (Str "1e1") = of_Z 1 /\ parseInt (Str "") = NaN /\
  parseInt (Str "abc") = NaN /\ parseInt (Int (-1)) = of_Z (-1).
Proof. repeat split; reflexivity. Qed.

Example ToNumber_examples :
  ToNumber (Str "10") = of_Z 10 /\ ToNumber (Str "2.5") = Fin (5 # 2) /\
  ToNumber (Str " 12 ") = of_Z 12 /\ ToNumber (Str "12px") = NaN /\
  ToNumber (Str "1e1") = of_Z 10 /\ ToNumber (Str "") = of_Z 0 /\
  ToNumber (Str "0x1F") = of_Z 31 /\ ToNumber (Str "-Infinity") = Inf /\
  ToNumber (Str ".") = NaN /\ ToNumber (Str "5.") = of_Z 5.
Proof. repeat split; vm_compute; reflexivity. Qed.

Example toFixed1_examples :
  toFixed1 (Fin (625 # 100)) = Fin (decimal1 63) /\
  toFixed1 (Fin (9375 # 100)) = Fin (decimal1 938) /\
  toFixed1 (Fin (100 # 3)) = Fin (decimal1 333) /\
  toFixed1 (Fin 50) = Fin (decimal1 500).
Proof. repeat split; vm_compute; reflexivity. Qed.

(** ** Coercions of decimal digit strings *)












(** ** Integers among the numbers *)




Lemma Qis_zero_inject z : Qis_zero (inject_Z z) = Z.eqb z 0.
Proof. reflexivity. Qed.


(** ** Sorting, skipping and limiting keep documents *)

Lemma insert_by_perm {A} (cmp : A -> A -> comparison) x l :
  insert_by cmp x l ≡ₚ x :: l.
Proof.
  induction l as [|y l IH]; simpl; [done|].
  destruct (cmp x y); try done.
  rewrite IH. apply perm_swap.
Qed.

Lemma sort_by_perm {A} (cmp : A -> A -> comparison) l : sort_by cmp l ≡ₚ l.
Proof.
  unfold sort_by. induction l as [|x l IH]; simpl; [done|].
  by rewrite insert_by_perm, IH.
Qed.


Lemma elem_of_sort_docs spec l d : d ∈ sort_docs spec l <-> d ∈ l.
Proof. unfold sort_docs. by rewrite sort_by_perm. Qed.

Lemma elem_of_limit_docs {A} n (l : list A) x : x ∈ limit_docs n l -> x ∈ l.
Proof.
  destruct n; simpl; [done|]. intros H.
  eapply (subseteq_take (S n) l); exact H.
Qed.


Lemma field_select excluded d k : k ∉ excluded -> field (select excluded d) k = field d k.
Proof.
  unfold field, select. induction excluded as [|e ex IH]; intros Hk; simpl; [done|].
  apply not_elem_of_cons in Hk as [Hne Hk].
  rewrite lookup_delete_ne by done. by apply IH.
Qed.

(** A document of a page is a document of the collection that matches the
    query, with the excluded fields removed. *)
Lemma elem_of_page excluded n s spec q (coll : list doc) d :
  d ∈ select excluded <$> limit_docs n (drop s (sort_docs spec (filter (matches q) coll))) ->
  exists d0, d = select excluded d0 /\ d0 ∈ coll /\ matches q d0.
Proof.
  intros (d0 & -> & H)%list_elem_of_fmap.
  apply elem_of_limit_docs in H.
  apply (subseteq_drop s) in H.
  apply elem_of_sort_docs, list_elem_of_filter in H as [Hm Hin].
  eauto.
Qed.

(** ** Query objects *)

Lemma matches_condition q d k c : q !! k = Some c -> matches q d -> holds c (field d k).
Proof. intros Hk Hm. exact (Hm k c Hk). Qed.

Lemma matches_insert q d k c :
  q !! k = None -> matches (<[ k := c ]> q) d <-> holds c (field d k) /\ matches q d.
Proof. intros Hk. unfold matches. by rewrite map_Forall_insert. Qed.

Lemma matches_empty d : matches ∅ d.
Proof. apply map_Forall_empty. Qed.

Lemma filter_matches_empty (l : list doc) : filter (matches ∅) l = l.
Proof.
  induction l as [|d l IH]; [done|].
  rewrite filter_cons_True by apply matches_empty. by rewrite IH.
Qed.

Lemma count_ext (P Q : doc -> Prop) `{!forall d, Decision (P d)} `{!forall d, Decision (Q d)}
    (l : list doc) :
  (forall d, P d <-> Q d) -> length (filter P l) = length (filter Q l).
Proof. intros Hiff. f_equal. by apply list_filter_iff. Qed.

(** ** Reading the handlers *)

Lemma await_at {A} w (a : A) k :
  await w a k = match fault w k with Some e => Threw e | None => Returned a (S k) end.
Proof. reflexivity. Qed.


(** Each lister is the same program over its own model, query, excluded
    fields and messages. *)
Lemma run_lister_eq l w req :
  run_lister l w req =
  match find w (lister_model l) (lister_query l req) (req_sort req) (req_skip req)
          (parseInt (req_limit req)) (lister_excluded l) O with
  | Threw e => failure (error_message (ListOf l)) e
  | Returned items n =>
      match countDocuments w (lister_model l) (lister_query l req) n with
      | Threw e => failure (error_message (ListOf l)) e
      | Returned total _ =>
          success (success_message (ListOf l))
            (ListData (lister_key l) items
               (pagination (req_page req) (req_limit req) total))
      end
  end.
Proof.
  destruct l; cbn [run_lister];
    unfold getPendingApprovals, getEngineersList, getShopsList, getAdsList,
      try_catch, mbind, M_bind, mret, M_ret;
    fold (req_page req); fold (req_limit req); fold (req_skip req); fold (req_sort req);
    cbn [lister_model lister_excluded lister_key error_message success_message];
    unfold lister_query; cbn [flag_field flag_param base_query];
    (destruct (find _ _ _ _ _ _ _ _) as [e|items n]; [reflexivity|]);
    destruct (countDocuments _ _ _ _); reflexivity.
Qed.

Lemma lister_success l w req items pg :
  listing (run_lister l w req) = Some (items, pg) ->
  exists spec s n,
    check_sort (req_sort req) = Some spec /\
    as_nat (req_skip req) = Some s /\
    cast_limit (parseInt (req_limit req)) = Some n /\
    items = select (lister_excluded l) <$> limit_docs n (drop s (listed l w req spec)) /\
    pg = pagination (req_page req) (req_limit req)
           (length (filter (matches (lister_query l req)) (collection w (lister_model l)))).
Proof.
  rewrite run_lister_eq. unfold find, countDocuments.
  destruct (check_sort (req_sort req)) as [spec|]; [|discriminate].
  destruct (as_nat (req_skip req)) as [s|]; [|discriminate].
  destruct (cast_limit (parseInt (req_limit req))) as [n|]; [|discriminate].
  rewrite await_at.
  destruct (fault w 0); [discriminate|].
  rewrite await_at.
  destruct (fault w 1); [discriminate|].
  unfold listing, success; cbn [data].
  intros [= <- <-]. by exists spec, s, n.
Qed.




(** ** C1: the number of pages *)




(** ** C2: the page a lister returns *)




(** ** C3: the counts of the dashboard and the totals of the listers *)

Ltac step_await w :=
  rewrite await_at;
  match goal with
  | |- context [fault w ?k] =>
      let e := fresh "e" in
      destruct (fault w k) as [e|] eqn:?; cbv beta iota; [try discriminate|]
  end.

Ltac run_handler w :=
  unfold try_catch, headline_counts, countDocuments, mbind, M_bind, mret, M_ret;
  repeat step_await w.

Lemma aggregator_counts ep w req c :
  is_aggregator ep ->
  reported_counts (handle ep w req) = Some c ->
  c = {| pendingApprovals := length (filter (matches pending_query) (products w));
         totalEngineers := length (filter (matches ∅) (engineers w));
         verifiedShops := length (filter (matches verified_shops_query) (shops w));
         activeAds := length (filter (matches active_ads_query) (ads w)) |}.
Proof.
  intros Hag.
  destruct ep; try done; cbn [handle];
    unfold getAdminDashboardStats, getDashboardCards, getDashboardCounts, getSimpleCounts;
    run_handler w;
    unfold reported_counts, success, cards_of;
    cbn [data dashboardCards count pendingApprovals totalEngineers verifiedShops activeAds];
    by intros [= <-].
Qed.

Lemma shared_query l req :
  shares_filter l req ->
  lister_query l req =
  match l with
  | PendingApprovals => pending_query
  | EngineersList => ∅
  | ShopsList => verified_shops_query
  | AdsList => active_ads_query
  end.
Proof.
  destruct l; unfold lister_query, boolean_filter; cbn [shares_filter flag_param flag_field base_query].
  - done.
  - by intros ->.
  - by intros ->.
  - by intros ->.
Qed.

(** C3: a count on the dashboard equals the [totalItems] of the lister
    with the same filter, over the same documents: pending approvals and
    the pending list, total engineers and the engineers list without
    [verified], verified shops and the shops list with [verified=true],
    active ads and the ads list with [active=true]. *)
Theorem count_matches_totalItems ep l w w' req req' c pg :
  is_aggregator ep -> same_state w w' -> shares_filter l req' ->
  reported_counts (handle ep w req) = Some c ->
  snd <$> listing (run_lister l w' req') = Some pg ->
  card_count l c = totalItems pg.
Proof.
  intros Hag Hsame Hshare Hc Hl.
  apply aggregator_counts in Hc; [|done]. subst c.
  destruct (listing (run_lister l w' req')) as [[items pg']|] eqn:Hr; [|discriminate].
  injection Hl as ->.
  apply lister_success in Hr as (spec & s & k & _ & _ & _ & _ & ->).
  cbn [pagination totalItems]. rewrite (shared_query _ _ Hshare).
  rewrite <- Hsame.
  by destruct l.
Qed.

Lemma count_matches_totalItems_witness :
  card_count ShopsList
    {| pendingApprovals := 1; totalEngineers := 3; verifiedShops := 1; activeAds := 1 |}%nat =
  totalItems {| currentPage := of_Z 1; totalPages := of_Z 1;
                totalItems := 1; itemsPerPage := of_Z 10 |}.
Proof.
  apply (count_matches_totalItems DashboardCards ShopsList marketplace marketplace
           no_params (filtered (Some "true") None)).
  - exact I.
  - intros m. reflexivity.
  - reflexivity.
  - vm_compute. reflexivity.
  - vm_compute. reflexivity.
Defined.

(** ** C7 and C10: the boolean filters and the base filter of the shops *)

Lemma base_query_flag l : l <> PendingApprovals -> base_query l !! flag_field l = None.
Proof. by destruct l. Qed.

Lemma flag_not_excluded l : flag_field l ∉ lister_excluded l.
Proof.
  destruct l; cbn;
    repeat (apply not_elem_of_cons; split; [done|]); apply not_elem_of_nil.
Qed.

Lemma flag_not_excluded_active l : "isActive" ∉ lister_excluded l.
Proof.
  destruct l; cbn;
    repeat (apply not_elem_of_cons; split; [done|]); apply not_elem_of_nil.
Qed.

Lemma matches_flag l req s d :
  l <> PendingApprovals -> flag_param l req = Some s ->
  matches (lister_query l req) d <->
  matches (base_query l) d /\ field d (flag_field l) = VBool (bool_decide (s = "true")).
Proof.
  intros Hl Hs. unfold lister_query, boolean_filter. rewrite Hs.
  rewrite matches_insert by by apply base_query_flag. simpl. tauto.
Qed.

Lemma matches_unset (q : gmap string cond) (d : doc) k v :
  q !! k = None -> matches q d <-> matches q (<[ k := v ]> d).
Proof.
  intros Hk. unfold matches, map_Forall.
  split; intros H k' c Hc; specialize (H k' c Hc);
    (assert (k ≠ k') by (intros ->; congruence));
    unfold field in *; by rewrite lookup_insert_ne in *.
Qed.

(** C7: for the engineers, shops and ads listers.  Without the parameter
    the query has no condition on the field, so a document matches
    whatever the field holds, and the total counts every document of the
    base query.  With the parameter, the field is compared with the
    boolean [param === "true"]: [true] for the string [true], [false] for
    any other string; every returned document holds that boolean and the
    total counts the documents that do. *)
Theorem boolean_filter_tristate l w req items pg :
  l <> PendingApprovals ->
  listing (run_lister l w req) = Some (items, pg) ->
  match flag_param l req with
  | None =>
      lister_query l req !! flag_field l = None /\
      (forall d v, matches (lister_query l req) d <->
                   matches (lister_query l req) (<[ flag_field l := v ]> d)) /\
      totalItems pg =
        length (filter (matches (base_query l)) (collection w (lister_model l)))
  | Some s =>
      let b := bool_decide (s = "true") in
      (s = "true" -> b = true) /\ (s <> "true" -> b = false) /\
      lister_query l req !! flag_field l = Some (CEq (VBool b)) /\
      (forall d, d ∈ items -> field d (flag_field l) = VBool b) /\
      totalItems pg =
        length (filter (fun d => matches (base_query l) d /\
                                 field d (flag_field l) = VBool b)
                  (collection w (lister_model l)))
  end.
Proof.
  intros Hl Hr.
  apply lister_success in Hr as (spec & s & k & _ & _ & _ & -> & ->).
  cbn [pagination totalItems].
  destruct (flag_param l req) as [p|] eqn:Hp.
  - cbn zeta. split; [by intros ->; apply bool_decide_eq_true_2|].
    split; [by intros ?; apply bool_decide_eq_false_2|].
    assert (lister_query l req !! flag_field l =
            Some (CEq (VBool (bool_decide (p = "true"))))) as Hq.
    { unfold lister_query, boolean_filter. rewrite Hp. apply lookup_insert_eq. }
    split; [done|]. split.
    + intros d (d0 & -> & _ & Hm)%elem_of_page.
      rewrite field_select by apply flag_not_excluded.
      exact (matches_condition _ _ _ _ Hq Hm).
    + apply count_ext. intros d. by apply matches_flag.
  - assert (lister_query l req = base_query l) as ->
      by (unfold lister_query, boolean_filter; by rewrite Hp).
    split; [by apply base_query_flag|]. split; [|done].
    intros d v. apply matches_unset. by apply base_query_flag.
Qed.

Lemma boolean_filter_tristate_witness :
  field (select ["notes"; "__v"] (engineer 2 false true 2)) "isVerified" = VBool false.
Proof.
  refine (proj1 (proj2 (proj2 (proj2 (boolean_filter_tristate EngineersList marketplace
            (filtered (Some "false") None)
            [select ["notes"; "__v"] (engineer 3 false false 3);
             select ["notes"; "__v"] (engineer 2 false true 2)]
            {| currentPage := of_Z 1; totalPages := of_Z 1;
               totalItems := 2; itemsPerPage := of_Z 10 |} _ _)))) _ _).
  - discriminate.
  - vm_compute. reflexivity.
  - apply list_elem_of_further, list_elem_of_here.
Defined.

(** C10: whatever the parameters, the query of the shops lister holds
    [isActive: true]: every returned shop is active and the total counts
    active shops only, those that also pass the [verified] filter when it
    is given.  The other listers have no such condition: the engineers
    and ads listers count every document when their parameter is absent,
    the pending lister the pending products. *)
Theorem shops_always_active w req items pg :
  listing (getShopsList w req) = Some (items, pg) ->
  (forall d, d ∈ items -> field d "isActive" = VBool true) /\
  totalItems pg =
    length (filter (fun d => field d "isActive" = VBool true /\
                             verified_as (verified req) d) (shops w)) /\
  (forall its p, listing (getEngineersList w req) = Some (its, p) ->
     verified req = None -> totalItems p = length (engineers w)) /\
  (forall its p, listing (getAdsList w req) = Some (its, p) ->
     active req = None -> totalItems p = length (ads w)) /\
  (forall its p, listing (getPendingApprovals w req) = Some (its, p) ->
     totalItems p =
       length (filter (fun d => field d "status" = VStr "pending") (products w))).
Proof.
  intros Hr.
  assert (forall d, matches (base_query ShopsList) d <-> field d "isActive" = VBool true)
    as Hbase.
  { intros d. unfold base_query, matches. by rewrite map_Forall_singleton. }
  assert (lister_query ShopsList req !! "isActive" = Some (CEq (VBool true))) as Hq.
  { unfold lister_query, boolean_filter; cbn [flag_param flag_field base_query].
    by destruct (verified req). }
  change (getShopsList w req) with (run_lister ShopsList w req) in Hr.
  apply lister_success in Hr as (spec & s & k & _ & _ & _ & -> & ->).
  cbn [pagination totalItems].
  split; [|split; [|split; [|split]]].
  - intros d (d0 & -> & _ & Hm)%elem_of_page.
    rewrite field_select by apply (flag_not_excluded_active ShopsList).
    exact (matches_condition _ _ _ _ Hq Hm).
  - apply count_ext. intros d. unfold verified_as.
    destruct (verified req) as [v|] eqn:Hv.
    + rewrite (matches_flag ShopsList req v) by done. by rewrite Hbase.
    + unfold lister_query, boolean_filter; cbn [flag_param]. rewrite Hv, Hbase. tauto.
  - intros its p Hr Hv.
    change (getEngineersList w req) with (run_lister EngineersList w req) in Hr.
    apply lister_success in Hr as (? & ? & ? & _ & _ & _ & _ & ->).
    cbn [pagination totalItems]. unfold lister_query, boolean_filter; cbn [flag_param].
    rewrite Hv. cbn [base_query lister_model collection].
    by rewrite filter_matches_empty.
  - intros its p Hr Hv.
    change (getAdsList w req) with (run_lister AdsList w req) in Hr.
    apply lister_success in Hr as (? & ? & ? & _ & _ & _ & _ & ->).
    cbn [pagination totalItems]. unfold lister_query, boolean_filter; cbn [flag_param].
    rewrite Hv. cbn [base_query lister_model collection].
    by rewrite filter_matches_empty.
  - intros its p Hr.
    change (getPendingApprovals w req) with (run_lister PendingApprovals w req) in Hr.
    apply lister_success in Hr as (? & ? & ? & _ & _ & _ & _ & ->).
    cbn [pagination totalItems]. apply count_ext. intros d.
    unfold lister_query, boolean_filter; cbn [flag_param base_query].
    unfold pending_query, matches. by rewrite map_Forall_singleton.
Qed.

Lemma shops_always_active_witness :
  field (select ["notes"; "verificationDocuments"; "__v"] (shop 1 true true 1)) "isActive"
  = VBool true.
Proof.
  refine (proj1 (shops_always_active marketplace no_params
            [select ["notes"; "verificationDocuments"; "__v"] (shop 3 false true 3);
             select ["notes"; "verificationDocuments"; "__v"] (shop 1 true true 1)]
            {| currentPage := of_Z 1; totalPages := of_Z 1;
               totalItems := 2; itemsPerPage := of_Z 10 |} _) _ _).
  - vm_compute. reflexivity.
  - apply list_elem_of_further, list_elem_of_here.
Defined.

(** ** C8: exceptions *)



(** ** C9: the sort key *)




(** ** C5 and C6: the approval and rejection rates *)


Lemma percent_nonneg part total : (0 <= percent part total)%Q.
Proof.
  unfold percent. apply Qmult_le_0_compat; [|discriminate].
  destruct total as [|total].
  - unfold Qdiv, Qinv; simpl. rewrite Qmult_0_r. apply Qle_refl.
  - apply Qle_shift_div_l; [unfold Qlt; simpl; lia|].
    rewrite Qmult_0_l. unfold Qle; simpl. lia.
Qed.

Lemma round1_nearest x : (0 <= x)%Q -> nearest_tenth (round1 x) x.
Proof.
  intros Hx. unfold round1, nearest_tenth.
  rewrite (proj2 (Qle_bool_iff 0 x) Hx).
  pose proof (Qfloor_le (x * 10 + (1 # 2))) as H1.
  pose proof (Qlt_floor (x * 10 + (1 # 2))) as H2.
  rewrite inject_Z_plus in H2. change (inject_Z 1) with 1%Q in H2.
  split; lra.
Qed.

Lemma rate_positive total part :
  (0 < total)%nat ->
  rate total part = Fin (decimal1 (round1 (percent part total))) /\
  nearest_tenth (round1 (percent part total)) (percent part total).
Proof.
  intros Ht. split; [|apply round1_nearest, percent_nonneg].
  unfold rate, gt, of_nat, of_Z.
  assert (Qle_bool (inject_Z (Z.of_nat total)) (inject_Z 0) = false) as ->.
  { apply not_true_is_false. rewrite Qle_bool_iff. unfold Qle; simpl. lia. }
  cbn [negb]. unfold div. rewrite Qis_zero_inject.
  destruct (Z.eqb_spec (Z.of_nat total) 0) as [E|_]; [lia|].
  reflexivity.
Qed.




(** C6, as stated, fails: of sixteen products, one approved and fifteen
    rejected, the rates are 6.25 and 93.75 percent; each is rounded up,
    to 6.3 and 93.8, and the sum is 100.1. *)
Lemma rounded_rates_exceed_100 :
  product_rates sixteen_decided = (Fin (decimal1 63), Fin (decimal1 938)) /\
  ~ (decimal1 63 + decimal1 938 <= 100)%Q.
Proof. split; [vm_compute; reflexivity | vm_compute; congruence]. Qed.

Lemma matches_with_status s d : matches (with_status s) d <-> field d "status" = VStr s.
Proof. unfold matches, with_status. by rewrite map_Forall_singleton. Qed.

(** Approved and rejected products are different products. *)
Lemma decided_le_total (docs : list doc) :
  (length (filter (matches (with_status "approved")) docs) +
   length (filter (matches (with_status "rejected")) docs) <= length docs)%nat /\
  ((length (filter (matches (with_status "approved")) docs) +
    length (filter (matches (with_status "rejected")) docs) = length docs)%nat <->
   forall d, d ∈ docs ->
     field d "status" = VStr "approved" \/ field d "status" = VStr "rejected").
Proof.
  induction docs as [|d docs [IHle IHeq]]; [split; [done|]; split; [|done]|].
  { intros _ d Hd. by apply elem_of_nil in Hd. }
  pose proof (length_filter (matches (with_status "approved")) docs) as La.
  pose proof (length_filter (matches (with_status "rejected")) docs) as Lr.
  rewrite !filter_cons.
  destruct (decide (matches (with_status "approved") d)) as [Ha|Ha];
    destruct (decide (matches (with_status "rejected") d)) as [Hr|Hr];
    rewrite ?matches_with_status in Ha, Hr; simpl length.
  - rewrite Ha in Hr. discriminate.
  - split; [lia|]. split.
    + intros E d' [->|Hd']%elem_of_cons; [by left|]. apply IHeq; [lia|done].
    + intros H. assert (forall d', d' ∈ docs ->
        field d' "status" = VStr "approved" \/ field d' "status" = VStr "rejected") as H'
        by (intros d' Hd'; apply H; by right).
      apply IHeq in H'. lia.
  - split; [lia|]. split.
    + intros E d' [->|Hd']%elem_of_cons; [by right|]. apply IHeq; [lia|done].
    + intros H. assert (forall d', d' ∈ docs ->
        field d' "status" = VStr "approved" \/ field d' "status" = VStr "rejected") as H'
        by (intros d' Hd'; apply H; by right).
      apply IHeq in H'. lia.
  - split; [lia|]. split; [lia|].
    intros H. destruct (H d) as [E|E]; [by left|done|done].
Qed.

Lemma decimal1_tenth t : (decimal1 t == inject_Z t * (1 # 10))%Q.
Proof. unfold decimal1, Qeq; simpl. lia. Qed.

Lemma percent_scaled part total :
  (0 < total)%nat ->
  (percent part total * inject_Z (Z.of_nat total) == inject_Z (Z.of_nat part) * 100)%Q.
Proof.
  intros Ht. unfold percent. field. unfold Qeq; simpl. lia.
Qed.

(** C6, amended: before rounding the two rates sum to at most 100, with
    equality exactly when every product is approved or rejected; each is
    then rounded to one decimal on its own, so the rates as computed sum
    to at most 100.1. *)
Theorem rates_sum_bound (docs : list doc) :
  let total := length docs in
  let approved := length (filter (matches (with_status "approved")) docs) in
  let rejected := length (filter (matches (with_status "rejected")) docs) in
  exists qa qr,
    product_rates docs = (Fin qa, Fin qr) /\
    (qa + qr <= 100 + (1 # 10))%Q /\
    ((0 < total)%nat ->
     (percent approved total + percent rejected total <= 100)%Q /\
     ((percent approved total + percent rejected total == 100)%Q <->
      forall d, d ∈ docs ->
        field d "status" = VStr "approved" \/ field d "status" = VStr "rejected")).
Proof.
  intros total approved rejected.
  destruct (decided_le_total docs) as [Hle Heq]. fold approved rejected total in Hle, Heq.
  unfold product_rates, approvalRate, rejectionRate. fold total approved rejected.
  assert ((0 < total)%nat ->
          (percent approved total + percent rejected total <= 100)%Q /\
          ((percent approved total + percent rejected total == 100)%Q <->
           (approved + rejected = total)%nat)) as Hexact.
  { intros Ht.
    pose proof (percent_scaled approved total Ht) as Ea.
    pose proof (percent_scaled rejected total Ht) as Er.
    set (pa := percent approved total) in *. set (pr := percent rejected total) in *.
    set (t := inject_Z (Z.of_nat total)) in *.
    assert (0 < t)%Q as Htpos by (unfold t, Qlt; simpl; lia).
    assert ((pa + pr) * t == inject_Z (Z.of_nat (approved + rejected)) * 100)%Q as Es.
    { rewrite Nat2Z.inj_add, inject_Z_plus. lra. }
    assert (inject_Z (Z.of_nat (approved + rejected)) <= t)%Q as Hq
      by (unfold t; rewrite <- Zle_Qle; lia).
    split.
    - apply (Qmult_le_r _ _ t Htpos). lra.
    - split.
      + intros E. rewrite E in Es.
        assert (t == inject_Z (Z.of_nat (approved + rejected)))%Q as Et by lra.
        unfold t, Qeq in Et. simpl in Et. lia.
      + intros E. apply (Qmult_inj_r _ _ t); [lra|].
        rewrite Es, E. fold t. lra. }
  destruct total as [|n] eqn:Etot.
  - exists 0%Q, 0%Q. split; [reflexivity|]. split; [discriminate|]. lia.
  - assert (0 < S n)%nat as Ht by lia.
    destruct (rate_positive (S n) approved Ht) as [-> [_ Ha]].
    destruct (rate_positive (S n) rejected Ht) as [-> [_ Hr]].
    eexists _, _. split; [reflexivity|].
    destruct (Hexact Ht) as [Hsum Hiff].
    split; [rewrite !decimal1_tenth; lra|].
    intros _. split; [done|]. by rewrite Hiff.
Qed.

Lemma rates_sum_bound_witness :
  (percent 1 16 + percent 15 16 <= 100)%Q.
Proof.
  destruct (rates_sum_bound sixteen_decided) as (qa & qr & _ & _ & H).
  exact (proj1 (H ltac:(vm_compute; lia))).
Defined.

(** ** C4: the category breakdown *)

Section Grouping.
Context {R : Type} (key : doc -> value) (new : R) (upd : doc -> R -> R).

Local Abbreviation summ := (summary key new upd).
Local Abbreviation keyed_by := (keyed key).

Lemma summary_snoc k pre d :
  summ k (pre ++ [d]) =
  if decide (key d = k) then upd d (summ k pre) else summ k pre.
Proof.
  unfold summary. rewrite filter_app, fold_left_app, filter_cons, filter_nil.
  by destruct (decide (key d = k)).
Qed.

Lemma group_step_new k u (f : value -> R) ks :
  k ∉ ks ->
  group_step k new u ((fun k' => (k', f k')) <$> ks) =
  ((fun k' => (k', f k')) <$> ks) ++ [(k, u new)].
Proof.
  induction ks as [|k0 ks IH]; intros Hk; [done|].
  apply not_elem_of_cons in Hk as [Hne Hk].
  rewrite !fmap_cons. cbn [group_step].
  rewrite decide_False by done. by rewrite IH.
Qed.

Lemma group_step_old k u (f : value -> R) ks :
  NoDup ks -> k ∈ ks ->
  group_step k new u ((fun k' => (k', f k')) <$> ks) =
  (fun k' => (k', if decide (k' = k) then u (f k') else f k')) <$> ks.
Proof.
  induction ks as [|k0 ks IH]; intros Hnd Hk; [by apply elem_of_nil in Hk|].
  apply NoDup_cons in Hnd as [Hk0 Hnd].
  rewrite !fmap_cons. cbn [group_step].
  destruct (decide (k0 = k)) as [->|Hne].
  - f_equal. apply list_fmap_ext. intros i k' Hk'.
    rewrite decide_False; [done|].
    intros ->. apply Hk0. by eapply list_elem_of_lookup_2.
  - f_equal. apply IH; [done|].
    apply elem_of_cons in Hk as [->|Hk]; [done|done].
Qed.

Lemma summary_unseen k pre : (forall d, d ∈ pre -> key d <> k) -> summ k pre = new.
Proof.
  intros H. unfold summary.
  assert (filter (fun d => key d = k) pre = []) as ->; [|done].
  induction pre as [|d pre IH]; [done|].
  rewrite filter_cons_False by (apply H, list_elem_of_here).
  apply IH. intros d' Hd'. by apply H, list_elem_of_further.
Qed.

Lemma group_step_summary pre d ks :
  keyed_by pre ks ->
  exists ks',
    keyed_by (pre ++ [d]) ks' /\
    group_step (key d) new (upd d) ((fun k => (k, summ k pre)) <$> ks) =
    (fun k => (k, summ k (pre ++ [d]))) <$> ks'.
Proof.
  intros [Hnd Hks].
  destruct (decide (key d ∈ ks)) as [Hin|Hin].
  - exists ks. split; [split; [done|]|].
    + intros k. rewrite Hks. split.
      * intros (d0 & Hd0 & <-). exists d0. split; [|done].
        apply elem_of_app. by left.
      * intros (d0 & [Hd0 | ->%list_elem_of_singleton]%elem_of_app & <-); [eauto|].
        by apply Hks.
    + rewrite group_step_old by done.
      apply list_fmap_ext. intros i k Hk. f_equal.
      rewrite summary_snoc. by destruct (decide (k = key d)) as [->|?];
        [rewrite decide_True by done | rewrite decide_False by done].
  - exists (ks ++ [key d]). split; [split|].
    + apply NoDup_app. split; [done|]. split; [|apply NoDup_singleton].
      intros k Hk ->%list_elem_of_singleton. done.
    + intros k. rewrite elem_of_app, Hks, list_elem_of_singleton. split.
      * intros [(d0 & Hd0 & Hd) | Hd]; subst k.
        -- exists d0. split; [|done]. apply elem_of_app. by left.
        -- exists d. split; [|done]. apply elem_of_app. right. apply list_elem_of_here.
      * intros (d0 & [Hd0 | ->%list_elem_of_singleton]%elem_of_app & <-); [left; eauto|by right].
    + rewrite group_step_new by done.
      rewrite fmap_app. simpl. f_equal.
      * apply list_fmap_ext. intros i k Hk. f_equal.
        rewrite summary_snoc. rewrite decide_False; [done|].
        intros E. apply Hin. rewrite E. by eapply list_elem_of_lookup_2.
      * do 2 f_equal. rewrite summary_snoc, decide_True by done. f_equal.
        symmetry. apply summary_unseen. intros d0 Hd0 E. apply Hin, Hks. eauto.
Qed.

Lemma group_fold docs : forall pre ks,
  keyed_by pre ks ->
  exists ks',
    keyed_by (pre ++ docs) ks' /\
    fold_left (fun rows d => group_step (key d) new (upd d) rows) docs
      ((fun k => (k, summ k pre)) <$> ks) =
    (fun k => (k, summ k (pre ++ docs))) <$> ks'.
Proof.
  induction docs as [|d docs IH]; intros pre ks Hk.
  - exists ks. by rewrite app_nil_r.
  - simpl. destruct (group_step_summary pre d ks Hk) as (ks1 & Hk1 & ->).
    destruct (IH _ _ Hk1) as (ks' & Hk' & ->).
    assert ((pre ++ [d]) ++ docs = pre ++ d :: docs) as E by by rewrite <- app_assoc.
    rewrite E in Hk' |- *. by exists ks'.
Qed.

(** The rows of [group]: one for each key met, each the summary of the
    documents of its key. *)
Lemma group_spec docs :
  exists ks, keyed_by docs ks /\
             group key new upd docs = (fun k => (k, summ k docs)) <$> ks.
Proof.
  destruct (group_fold docs [] []) as (ks & Hk & Hg).
  - split; [apply NoDup_nil_2|]. intros k. split.
    + by intros ?%elem_of_nil.
    + by intros (d & ?%elem_of_nil & _).
  - exists ks. split; [exact Hk|]. exact Hg.
Qed.
End Grouping.

Lemma category_fold ds : forall c p a r,
  fold_left (fun acc d => category_upd d acc) ds (c, p, a, r) =
  (c + length ds, p + count_status "pending" ds,
   a + count_status "approved" ds, r + count_status "rejected" ds)%nat.
Proof.
  unfold count_status.
  induction ds as [|d ds IH]; intros c p a r; simpl.
  - by rewrite !Nat.add_0_r.
  - rewrite IH. unfold sum_cond. rewrite !filter_cons.
    repeat destruct (decide (field d "status" = _)); simpl length;
      (f_equal; [f_equal; [f_equal|]|]); lia.
Qed.

Lemma category_summary k docs :
  summary (fun d => field d "type") (0, 0, 0, 0)%nat category_upd k docs =
  (length (of_type k docs), count_status "pending" (of_type k docs),
   count_status "approved" (of_type k docs), count_status "rejected" (of_type k docs)).
Proof. unfold summary. by rewrite category_fold. Qed.

(** Insertion by a count, descending, leaves the list in that order. *)
Lemma sort_by_desc_sorted {A} (f : A -> nat) (l : list A) :
  StronglySorted (fun a b => (f b <= f a)%nat)
    (sort_by (fun a b => CompOpp (Nat.compare (f a) (f b))) l).
Proof.
  unfold sort_by. induction l as [|x l IH]; simpl; [constructor|].
  set (cmp := fun a b => CompOpp (Nat.compare (f a) (f b))) in *.
  revert IH. generalize (foldr (insert_by cmp) [] l). clear l.
  intros l Hs. induction Hs as [|y l Hs IH Hy]; simpl; [repeat constructor|].
  unfold cmp at 1. destruct (Nat.compare_spec (f x) (f y)) as [E|E|E]; simpl.
  - constructor; [by constructor|].
    constructor; [lia|]. eapply Forall_impl; [exact Hy|]. simpl. intros; lia.
  - constructor; [exact IH|].
    rewrite insert_by_perm. constructor; [lia|done].
  - constructor; [by constructor|].
    constructor; [lia|]. eapply Forall_impl; [exact Hy|]. simpl. intros; lia.
Qed.

Lemma byCategory_entries rows : forall acc k v,
  fold_left
    (fun acc cat =>
       set_key (property_key (category cat))
         (parseFloat (toFixed1 (cat_approvalRate cat))) acc) rows acc !! k = Some v ->
  acc !! k = Some v \/
  exists row, row ∈ rows /\ k = property_key (category row) /\
              v = toFixed1 (cat_approvalRate row).
Proof.
  induction rows as [|row rows IH]; intros acc k v; simpl; [by left|].
  intros [H|(row' & Hin & Hk & Hv)]%IH.
  - unfold set_key in H. destruct (decide (_ = "__proto__")); [by left|].
    apply lookup_insert_Some in H as [[<- <-]|[_ H]]; [|by left].
    right. exists row. split; [apply list_elem_of_here|done].
  - right. exists row'. split; [by apply list_elem_of_further|done].
Qed.




(** * Further properties *)

(** ** The regional breakdown *)

Lemma region_fold ds : forall c p,
  fold_left (fun acc d => region_upd d acc) ds (c, p) =
  (c + length ds, p + count_status "pending" ds)%nat.
Proof.
  unfold count_status.
  induction ds as [|d ds IH]; intros c p; simpl.
  - by rewrite !Nat.add_0_r.
  - rewrite IH. unfold sum_cond. rewrite !filter_cons.
    destruct (decide (field d "status" = _)); simpl length; f_equal; lia.
Qed.

Lemma region_summary k docs :
  summary (fun d => field d "governorate") (0, 0)%nat region_upd k docs =
  (length (of_governorate k docs), count_status "pending" (of_governorate k docs)).
Proof. unfold summary. by rewrite region_fold. Qed.

Lemma filter_nonempty (P : doc -> Prop) `{!forall d, Decision (P d)} (l : list doc) d :
  d ∈ l -> P d -> (1 <= length (filter P l))%nat.
Proof.
  intros Hd HP.
  assert (d ∈ filter P l) as Hin by by apply list_elem_of_filter.
  destruct (filter P l); [by apply elem_of_nil in Hin | simpl; lia].
Qed.

(** X1: the regional breakdown has at most ten rows, one governorate each, in
    descending order of products; a row counts the products of its
    governorate and the pending ones among them; a governorate without a
    row has no more products than any row, and none is left out when
    fewer than ten rows come back. *)
Theorem regionalStats_spec (docs : list doc) :
  let rows := regionalStats docs in
  (length rows <= 10)%nat /\
  (forall row, row ∈ rows ->
     let members := of_governorate (reg_id row) docs in
     reg_products row = length members /\
     reg_pending row = count_status "pending" members /\
     (reg_pending row <= reg_products row)%nat /\
     (1 <= reg_products row)%nat) /\
  NoDup (reg_id <$> rows) /\
  StronglySorted (fun a b => (reg_products b <= reg_products a)%nat) rows /\
  (forall d row, d ∈ docs -> field d "governorate" ∉ reg_id <$> rows -> row ∈ rows ->
     (length (of_governorate (field d "governorate") docs) <= reg_products row)%nat) /\
  ((length rows < 10)%nat ->
   forall d, d ∈ docs -> field d "governorate" ∈ reg_id <$> rows).
Proof.
  intros rows.
  destruct (group_spec (fun d => field d "governorate") (0, 0)%nat region_upd docs)
    as (ks & [Hnd Hks] & Hg).
  set (F := fun k => region_row (k, (length (of_governorate k docs),
                                     count_status "pending" (of_governorate k docs)))).
  set (full := sort_by (fun a b => CompOpp (Nat.compare (reg_products a) (reg_products b)))
                 (region_row <$> group (fun d => field d "governorate") (0, 0)%nat
                                   region_upd docs)).
  assert (rows = take 10 full) as Hrows by reflexivity.
  assert (full ≡ₚ F <$> ks) as Hfull.
  { unfold full. rewrite sort_by_perm, Hg, <- list_fmap_compose.
    erewrite list_fmap_ext; [reflexivity|].
    intros i k _. simpl. by rewrite region_summary. }
  assert (reg_id <$> (F <$> ks) = ks) as Hids.
  { rewrite <- list_fmap_compose. rewrite <- (list_fmap_id ks) at 2.
    by apply list_fmap_ext. }
  assert (StronglySorted (fun a b => (reg_products b <= reg_products a)%nat) full)
    as Hsorted by apply sort_by_desc_sorted.
  assert (forall row, row ∈ full -> exists k, k ∈ ks /\ row = F k) as Hrow.
  { intros row Hin. rewrite Hfull in Hin.
    apply list_elem_of_fmap in Hin as (k & -> & Hk). eauto. }
  split; [rewrite Hrows, length_take; lia|].
  split; [|split; [|split; [|split]]].
  - intros row Hin. rewrite Hrows in Hin. apply (subseteq_take 10 full) in Hin.
    destruct (Hrow _ Hin) as (k & Hk & ->). cbn.
    split; [done|]. split; [done|].
    split; [apply length_filter|].
    apply Hks in Hk as (d & Hd & Hkd).
    by apply (filter_nonempty _ docs d).
  - rewrite Hrows, fmap_take.
    apply (sublist_NoDup _ (reg_id <$> full)); [|apply sublist_take].
    rewrite Hfull, Hids. exact Hnd.
  - rewrite <- (take_drop 10 full) in Hsorted.
    rewrite Hrows. by apply StronglySorted_app_1_l in Hsorted.
  - intros d row Hd Hout Hin.
    assert (F (field d "governorate") ∈ full) as HF.
    { rewrite Hfull. apply list_elem_of_fmap. eexists; split; [done|].
      apply Hks. eauto. }
    rewrite <- (take_drop 10 full) in HF, Hsorted.
    apply elem_of_app in HF as [HF|HF].
    + exfalso. apply Hout. rewrite Hrows.
      apply list_elem_of_fmap. exists (F (field d "governorate")). by split.
    + rewrite Hrows in Hin.
      exact (StronglySorted_app_1_elem_of _ _ _ _ _ Hsorted Hin HF).
  - intros Hlt d Hd.
    assert (rows = full) as ->.
    { rewrite Hrows. apply take_ge. rewrite Hrows, length_take in Hlt. lia. }
    rewrite Hfull, Hids. apply Hks. eauto.
Qed.

Lemma regionalStats_spec_witness :
  let row := {| reg_id := VStr "Sanaa"; reg_products := 2; reg_pending := 1 |} in
  row ∈ regionalStats (products marketplace) /\
  reg_products row = length (of_governorate (VStr "Sanaa") (products marketplace)) /\
  reg_pending row = count_status "pending" (of_governorate (VStr "Sanaa") (products marketplace)).
Proof.
  intros row.
  assert (row ∈ regionalStats (products marketplace)) as Hin
    by (vm_compute; apply list_elem_of_here).
  destruct (proj1 (proj2 (regionalStats_spec (products marketplace))) row Hin)
    as (Hproducts & Hpending & _).
  split; [exact Hin|]. split; [exact Hproducts | exact Hpending].
Defined.

(** ** What a response of the statistics handler holds *)

Lemma stats_success w req s :
  stats_of (getAdminDashboardStats w req) = Some s ->
  let total := length (products w) in
  let pending := count_where pending_query (products w) in
  let approved := count_where (with_status "approved") (products w) in
  let rejected := count_where (with_status "rejected") (products w) in
  ov_totalUsers s = length (users w) /\
  ov_totalProducts s = (total, pending, approved, rejected) /\
  ov_totalShops s = (length (shops w), count_where verified_shops_query (shops w)) /\
  ov_totalEngineers s =
    (length (engineers w),
     count_where {[ "isVerified" := CEq (VBool true) ]} (engineers w),
     count_where {[ "isActive" := CEq (VBool true) ]} (engineers w)) /\
  act_registrationsToday s = count_where (since "createdAt" (today w)) (users w) /\
  act_submissionsToday s = (count_where (since "createdAt" (today w)) (products w), pending) /\
  act_approvalsToday s =
    count_where (<[ "status" := CEq (VStr "approved") ]> (since "updatedAt" (today w)))
      (products w) /\
  act_rejectionsToday s =
    count_where (<[ "status" := CEq (VStr "rejected") ]> (since "updatedAt" (today w)))
      (products w) /\
  perf_overall s = approvalRate total approved /\
  perf_byCategory s = byCategory (categoryStats (products w)) /\
  perf_popularCategories s = popularCategories (categoryStats (products w)) total /\
  reg_byGovernorate s = byGovernorate (regionalStats (products w)) /\
  reg_topRegions s = topRegions (regionalStats (products w)).
Proof.
  unfold stats_of, getAdminDashboardStats.
  unfold try_catch, countDocuments, mbind, M_bind, mret, M_ret.
  repeat step_await w.
  unfold success; cbn [data]. intros [= <-].
  cbn [ov_totalUsers ov_totalProducts ov_totalShops ov_totalEngineers
       act_registrationsToday act_submissionsToday act_approvalsToday act_rejectionsToday
       perf_overall perf_byCategory perf_popularCategories reg_byGovernorate
       reg_topRegions collection].
  unfold count_where, with_status, parseFloat. rewrite !filter_matches_empty.
  repeat split.
Qed.

(** ** The regions of the response *)

Lemma StronglySorted_lookup_lt {A} (R : A -> A -> Prop) (l : list A) i j a b :
  StronglySorted R l -> (i < j)%nat -> l !! i = Some a -> l !! j = Some b -> R a b.
Proof.
  intros Hs. revert i j. induction Hs as [|x l Hs IH Hx]; intros i j Hij Hi Hj.
  - by rewrite lookup_nil in Hi.
  - destruct j as [|j]; [lia|]. destruct i as [|i]; simpl in *.
    + injection Hi as <-. rewrite Forall_forall in Hx. apply Hx.
      by eapply list_elem_of_lookup_2.
    + apply (IH i j); [lia|done|done].
Qed.

Lemma regionalStats_sorted docs :
  StronglySorted (fun a b => (reg_products b <= reg_products a)%nat) (regionalStats docs).
Proof.
  unfold regionalStats.
  set (full := sort_by _ _).
  assert (StronglySorted (fun a b => (reg_products b <= reg_products a)%nat) full) as Hs
    by apply sort_by_desc_sorted.
  rewrite <- (take_drop 10 full) in Hs. by apply StronglySorted_app_1_l in Hs.
Qed.

(** X2: the regions of a response: [byGovernorate] has at most ten entries
    and [topRegions] the first five of them, or all when there are fewer,
    in the same order; a top region is labelled [high] above 50 products,
    [medium] above 20 and [low] otherwise, so that no region follows one
    with a lower label. *)
Theorem topRegions_spec w req s :
  stats_of (getAdminDashboardStats w req) = Some s ->
  (length (reg_byGovernorate s) <= 10)%nat /\
  length (reg_topRegions s) = Nat.min 5 (length (reg_byGovernorate s)) /\
  (forall i name label, reg_topRegions s !! i = Some (name, label) ->
     exists n p,
       reg_byGovernorate s !! i = Some (name, n, p) /\
       (label = "high" <-> (50 < n)%nat) /\
       (label = "medium" <-> (20 < n <= 50)%nat) /\
       (label = "low" <-> (n <= 20)%nat)) /\
  (forall i j ni li nj lj, (i <= j)%nat ->
     reg_topRegions s !! i = Some (ni, li) -> reg_topRegions s !! j = Some (nj, lj) ->
     (lj = "high" -> li = "high") /\ (lj = "medium" -> li <> "low")).
Proof.
  intros Hs. apply stats_success in Hs.
  destruct Hs as (_ & _ & _ & _ & _ & _ & _ & _ & _ & _ & _ & -> & ->).
  set (rows := regionalStats (products w)).
  assert (length rows <= 10)%nat as Hlen
    by (unfold rows, regionalStats; rewrite length_take; lia).
  assert (forall i name label,
            topRegions rows !! i = Some (name, label) ->
            exists r, rows !! i = Some r /\ name = reg_id r /\
              label = (if (50 <? reg_products r)%nat then "high"
                       else if (20 <? reg_products r)%nat then "medium" else "low")) as Htop.
  { intros i name label H. unfold topRegions in H.
    rewrite list_lookup_fmap in H.
    destruct (take 5 rows !! i) as [r|] eqn:Hr; [|discriminate].
    injection H as <- <-. apply lookup_take_Some in Hr as [Hr _]. eauto. }
  split; [unfold byGovernorate; by rewrite length_fmap|].
  split; [unfold topRegions, byGovernorate; by rewrite !length_fmap, length_take|].
  split.
  - intros i name label (r & Hr & -> & ->)%Htop.
    exists (reg_products r), (reg_pending r).
    split; [unfold byGovernorate; by rewrite list_lookup_fmap, Hr|].
    destruct (Nat.ltb_spec 50 (reg_products r)); [|destruct (Nat.ltb_spec 20 (reg_products r))];
      repeat split; intros; (lia || done).
  - intros i j ni li nj lj Hij (ri & Hri & -> & ->)%Htop (rj & Hrj & -> & ->)%Htop.
    assert (reg_products rj <= reg_products ri)%nat as Hle.
    { destruct (decide (i = j)) as [->|Hne].
      - rewrite Hri in Hrj. by injection Hrj as ->.
      - apply (StronglySorted_lookup_lt
                 (fun a b => (reg_products b <= reg_products a)%nat) rows i j ri rj);
          [apply regionalStats_sorted | lia | done | done]. }
    destruct (Nat.ltb_spec 50 (reg_products rj)), (Nat.ltb_spec 50 (reg_products ri));
      destruct (Nat.ltb_spec 20 (reg_products rj)), (Nat.ltb_spec 20 (reg_products ri));
      split; intros; (lia || done).
Qed.

Lemma topRegions_spec_witness :
  exists s,
    stats_of (getAdminDashboardStats marketplace no_params) = Some s /\
    length (reg_topRegions s) = Nat.min 5 (length (reg_byGovernorate s)).
Proof.
  destruct (stats_of (getAdminDashboardStats marketplace no_params)) as [s|] eqn:E;
    [|vm_compute in E; discriminate E].
  exists s. split; [reflexivity|].
  exact (proj1 (proj2 (topRegions_spec marketplace no_params s E))).
Defined.

(** ** The counts of the categories *)

Lemma categoryStats_rows docs :
  exists ks, keyed (fun d => field d "type") docs ks /\
             categoryStats docs ≡ₚ (fun k => category_row k docs) <$> ks.
Proof.
  destruct (group_spec (fun d => field d "type") (0, 0, 0, 0)%nat category_upd docs)
    as (ks & Hk & Hg).
  exists ks. split; [exact Hk|].
  unfold categoryStats. rewrite sort_by_perm, Hg, <- list_fmap_compose.
  erewrite list_fmap_ext; [reflexivity|].
  intros i k _. simpl. unfold category_row. by rewrite category_summary.
Qed.

Lemma count_split_key (key : doc -> value) k ks (docs : list doc) :
  k ∉ ks ->
  length (filter (fun d => key d ∈ k :: ks) docs) =
  (length (filter (fun d => key d = k) docs) +
   length (filter (fun d => key d ∈ ks) docs))%nat.
Proof.
  intros Hk. induction docs as [|d docs IH]; [done|].
  rewrite !filter_cons.
  destruct (decide (key d = k)) as [E|E].
  - rewrite decide_True by (rewrite E; apply list_elem_of_here).
    rewrite decide_False by (rewrite E; exact Hk). simpl. lia.
  - destruct (decide (key d ∈ ks)) as [Hin|Hin].
    + rewrite decide_True by by apply list_elem_of_further. simpl. lia.
    + rewrite decide_False; [exact IH|].
      intros [?|?]%elem_of_cons; congruence.
Qed.

Lemma sum_counts_keys (key : doc -> value) ks (docs : list doc) :
  NoDup ks ->
  sum_list ((fun k => length (filter (fun d => key d = k) docs)) <$> ks) =
  length (filter (fun d => key d ∈ ks) docs).
Proof.
  induction 1 as [|k ks Hk Hnd IH].
  - induction docs as [|d docs IHd]; [done|].
    rewrite filter_cons_False by apply not_elem_of_nil. exact IHd.
  - rewrite fmap_cons, count_split_key by done.
    cbn [sum_list_with]. unfold id at 1. by rewrite IH.
Qed.

Lemma statuses_le_length (docs : list doc) :
  (count_status "pending" docs + count_status "approved" docs +
   count_status "rejected" docs <= length docs)%nat.
Proof.
  unfold count_status. induction docs as [|d docs IH]; [done|].
  rewrite !filter_cons.
  destruct (decide (field d "status" = VStr "pending")) as [E|_];
    [rewrite !E; rewrite !decide_False by discriminate; simpl; lia|].
  destruct (decide (field d "status" = VStr "approved")) as [E|_];
    [rewrite !E; rewrite !decide_False by discriminate; simpl; lia|].
  destruct (decide (field d "status" = VStr "rejected")); simpl; lia.
Qed.

(** X3: the rows of the category pipeline count every product once: their
    counts add up to the number of products; no row is empty, and the
    pending, approved and rejected of a row add up to its count at
    most. *)
Theorem category_counts_total (docs : list doc) :
  sum_list (cat_count <$> categoryStats docs) = length docs /\
  forall row, row ∈ categoryStats docs ->
    (1 <= cat_count row)%nat /\
    (cat_pending row + cat_approved row + cat_rejected row <= cat_count row)%nat.
Proof.
  destruct (categoryStats_rows docs) as (ks & [Hnd Hks] & Hrows).
  split.
  - rewrite Hrows, <- list_fmap_compose.
    erewrite list_fmap_ext;
      [|intros i k _; unfold compose, category_row; cbn [category_project cat_count];
        reflexivity].
    unfold of_type. rewrite sum_counts_keys by done.
    f_equal. clear Hrows. induction docs as [|d docs IH]; [done|].
    rewrite filter_cons_True by (apply Hks; exists d; split; [apply list_elem_of_here|done]).
    f_equal. assert (filter (fun d0 => field d0 "type" ∈ ks) docs = docs) as ->; [|done].
    clear IH. assert (forall d', d' ∈ docs -> field d' "type" ∈ ks) as Hall
      by (intros d' Hd'; apply Hks; exists d'; split; [by apply list_elem_of_further|done]).
    clear Hks. induction docs as [|d' docs IH]; [done|].
    rewrite filter_cons_True by apply Hall, list_elem_of_here.
    f_equal. apply IH. intros d'' Hd''. by apply Hall, list_elem_of_further.
  - intros row Hrow. rewrite Hrows in Hrow.
    apply list_elem_of_fmap in Hrow as (k & -> & Hk). cbn.
    split; [|apply statuses_le_length].
    apply Hks in Hk as (d & Hd & Hkd). by apply (filter_nonempty _ docs d).
Qed.

Lemma category_counts_total_witness :
  (1 <= cat_count (category_row (VStr "Panel") (products marketplace)))%nat.
Proof.
  refine (proj1 (proj2 (category_counts_total (products marketplace))
                   (category_row (VStr "Panel") (products marketplace)) _)).
  vm_compute. apply list_elem_of_here.
Defined.

(** ** Percentages *)

Lemma percent_le_100 part total :
  (1 <= total)%nat -> (part <= total)%nat -> (percent part total <= 100)%Q.
Proof.
  intros Ht Hp.
  pose proof (percent_scaled part total ltac:(lia)) as E.
  set (t := inject_Z (Z.of_nat total)) in *.
  assert (0 < t)%Q as Htpos by (unfold t, Qlt; simpl; lia).
  assert (inject_Z (Z.of_nat part) <= t)%Q as Hq
    by (unfold t; rewrite <- Zle_Qle; lia).
  apply (Qmult_le_r _ _ t Htpos). lra.
Qed.

Lemma round1_range part total :
  (1 <= total)%nat -> (part <= total)%nat -> 0 <= round1 (percent part total) <= 1000.
Proof.
  intros Ht Hp.
  pose proof (percent_nonneg part total) as H0.
  pose proof (percent_le_100 part total Ht Hp) as H100.
  unfold round1. rewrite (proj2 (Qle_bool_iff 0 _) H0).
  split.
  - change 0 with (Qfloor 0). apply Qfloor_resp_le. lra.
  - change 1000 with (Qfloor (1000 + (1 # 2))). apply Qfloor_resp_le. lra.
Qed.

Lemma rounded_percent part total :
  (1 <= total)%nat -> (part <= total)%nat ->
  exists t,
    toFixed1 (mul (div (of_nat part) (of_nat total)) (of_Z 100)) = Fin (decimal1 t) /\
    0 <= t <= 1000 /\ nearest_tenth t (percent part total).
Proof.
  intros Ht Hp. exists (round1 (percent part total)).
  split; [|split; [by apply round1_range | apply round1_nearest, percent_nonneg]].
  unfold div, of_nat, of_Z. rewrite Qis_zero_inject.
  destruct (Z.eqb_spec (Z.of_nat total) 0) as [E|_]; [lia|]. reflexivity.
Qed.



(** X5: the approval rates of a response, overall and for each category, are
    numbers between 0 and 100. *)
Theorem approval_rates_in_range w req s :
  stats_of (getAdminDashboardStats w req) = Some s ->
  (exists q, perf_overall s = Fin q /\ (0 <= q <= 100)%Q) /\
  (forall k v, perf_byCategory s !! k = Some v ->
     exists t, v = Fin (decimal1 t) /\ 0 <= t <= 1000).
Proof.
  intros Hs. apply stats_success in Hs.
  destruct Hs as (_ & _ & _ & _ & _ & _ & _ & _ & -> & -> & _).
  split.
  - unfold approvalRate.
    set (approved := count_where (with_status "approved") (products w)).
    destruct (decide (length (products w) = 0%nat)) as [E|E].
    + rewrite E. exists 0%Q. split; [reflexivity|]. split; [apply Qle_refl|discriminate].
    + assert (approved <= length (products w))%nat as Hle by apply length_filter.
      destruct (rate_positive (length (products w)) approved ltac:(lia)) as [-> _].
      pose proof (round1_range approved (length (products w)) ltac:(lia) Hle) as [Ht0 Ht1].
      eexists. split; [reflexivity|].
      unfold decimal1, Qle; simpl. lia.
  - intros k v H. unfold byCategory in H.
    apply byCategory_entries in H as [H|(row & Hrow & _ & ->)];
      [by rewrite lookup_empty in H|].
    destruct (categoryStats_rows (products w)) as (ks & [Hnd Hks] & Hrows).
    rewrite Hrows in Hrow. apply list_elem_of_fmap in Hrow as (k' & -> & Hk').
    cbn [category_row category_project cat_approvalRate].
    set (members := of_type k' (products w)).
    destruct (rounded_percent (count_status "approved" members)
                (Nat.max (length members) 1)) as (t & -> & Ht & _); [lia| |by eauto].
    pose proof (statuses_le_length members). lia.
Qed.

Lemma approval_rates_in_range_witness :
  exists s q,
    stats_of (getAdminDashboardStats marketplace no_params) = Some s /\
    perf_overall s = Fin q /\ (0 <= q <= 100)%Q.
Proof.
  destruct (stats_of (getAdminDashboardStats marketplace no_params)) as [s|] eqn:E;
    [|vm_compute in E; discriminate E].
  destruct (proj1 (approval_rates_in_range marketplace no_params s E)) as (q & Hq & Hr).
  exists s, q. split; [reflexivity|]. split; [exact Hq | exact Hr].
Defined.

(** ** The approval rate of a category, by name *)






(** ** The overview of a response *)

Lemma count_mono (P Q : doc -> Prop) `{!forall d, Decision (P d)} `{!forall d, Decision (Q d)}
    (l : list doc) :
  (forall d, P d -> Q d) -> (length (filter P l) <= length (filter Q l))%nat.
Proof.
  intros Himp. induction l as [|d l IH]; [done|].
  rewrite !filter_cons. destruct (decide (P d)) as [HP|HP].
  - rewrite decide_True by by apply Himp. simpl. lia.
  - destruct (decide (Q d)); simpl; lia.
Qed.

Lemma count_where_status s docs : count_where (with_status s) docs = count_status s docs.
Proof. apply count_ext. intros d. apply matches_with_status. Qed.

Lemma count_where_le q docs : (count_where q docs <= length docs)%nat.
Proof. apply length_filter. Qed.

Lemma count_where_stronger q k c docs :
  (count_where (<[ k := c ]> q) docs <= count_where {[ k := c ]} docs)%nat.
Proof.
  apply count_mono. intros d Hm. unfold matches. rewrite map_Forall_singleton.
  apply (matches_condition _ _ _ _ (lookup_insert_eq q k c) Hm).
Qed.

Lemma stats_cards w req s :
  stats_of (getAdminDashboardStats w req) = Some s ->
  count (pendingApprovals (dashboardCards s)) = count_where pending_query (products w) /\
  count (totalEngineers (dashboardCards s)) = length (engineers w) /\
  count (verifiedShops (dashboardCards s)) = count_where verified_shops_query (shops w) /\
  count (activeAds (dashboardCards s)) = count_where active_ads_query (ads w).
Proof.
  intros Hs.
  assert (reported_counts (getAdminDashboardStats w req) =
          Some {| pendingApprovals := count (pendingApprovals (dashboardCards s));
                  totalEngineers := count (totalEngineers (dashboardCards s));
                  verifiedShops := count (verifiedShops (dashboardCards s));
                  activeAds := count (activeAds (dashboardCards s)) |}) as Hc.
  { unfold stats_of in Hs. unfold reported_counts.
    destruct (data (getAdminDashboardStats w req)) as [[| | |s']|]; try discriminate.
    injection Hs as ->. by destruct s. }
  apply (aggregator_counts AdminDashboardStats) in Hc; [|exact I].
  injection Hc as -> -> -> ->. unfold count_where.
  by rewrite filter_matches_empty.
Qed.

(** X7: the figures of a response agree with one another: pending, approved
    and rejected products are no more than the products; verified shops no
    more than shops; verified and available engineers no more than
    engineers; what is counted for today no more than the whole; and the
    cards repeat the figures of the overview. *)
Theorem overview_consistent w req s :
  stats_of (getAdminDashboardStats w req) = Some s ->
  exists total pending approved rejected shops verifiedShops' engineers verifiedEngineers
         availableEngineers submissionsToday,
    ov_totalProducts s = (total, pending, approved, rejected) /\
    ov_totalShops s = (shops, verifiedShops') /\
    ov_totalEngineers s = (engineers, verifiedEngineers, availableEngineers) /\
    act_submissionsToday s = (submissionsToday, pending) /\
    (pending + approved + rejected <= total)%nat /\
    (verifiedShops' <= shops)%nat /\
    (verifiedEngineers <= engineers)%nat /\ (availableEngineers <= engineers)%nat /\
    (submissionsToday <= total)%nat /\
    (act_approvalsToday s <= approved)%nat /\ (act_rejectionsToday s <= rejected)%nat /\
    (act_registrationsToday s <= ov_totalUsers s)%nat /\
    count (pendingApprovals (dashboardCards s)) = pending /\
    count (totalEngineers (dashboardCards s)) = engineers /\
    count (verifiedShops (dashboardCards s)) = verifiedShops'.
Proof.
  intros Hs. destruct (stats_cards w req s Hs) as (Hc1 & Hc2 & Hc3 & _).
  apply stats_success in Hs.
  destruct Hs as (Hu & Hp & Hsh & He & Hr & Hsub & Ha & Hrej & _).
  do 10 eexists.
  split; [exact Hp|]. split; [exact Hsh|]. split; [exact He|]. split; [exact Hsub|].
  rewrite Ha, Hrej, Hr, Hu, Hc1, Hc2, Hc3.
  change pending_query with (with_status "pending").
  rewrite !count_where_status.
  pose proof (statuses_le_length (products w)).
  pose proof (count_where_stronger (since "updatedAt" (today w)) "status"
                (CEq (VStr "approved")) (products w)) as Hap.
  pose proof (count_where_stronger (since "updatedAt" (today w)) "status"
                (CEq (VStr "rejected")) (products w)) as Hrj.
  fold (with_status "approved") in Hap. fold (with_status "rejected") in Hrj.
  rewrite count_where_status in Hap, Hrj.
  repeat split; try done; try apply count_where_le.
Qed.

Lemma overview_consistent_witness :
  exists s total pending approved rejected,
    stats_of (getAdminDashboardStats marketplace no_params) = Some s /\
    ov_totalProducts s = (total, pending, approved, rejected) /\
    (pending + approved + rejected <= total)%nat.
Proof.
  destruct (stats_of (getAdminDashboardStats marketplace no_params)) as [s|] eqn:E;
    [|vm_compute in E; discriminate E].
  destruct (overview_consistent marketplace no_params s E)
    as (total & pending & approved & rejected & ? & ? & ? & ? & ? & ? & Hp & _ & _ & _ & Hle & _).
  exists s, total, pending, approved, rejected.
  split; [reflexivity|]. split; [exact Hp | exact Hle].
Defined.

(** ** The four counts, on every endpoint that reports them *)

Lemma matches_verified_shops d :
  matches verified_shops_query d <->
  field d "isVerified" = VBool true /\ field d "isActive" = VBool true.
Proof.
  unfold verified_shops_query.
  rewrite matches_insert by done. unfold matches. by rewrite map_Forall_singleton.
Qed.

(** X8: the dashboard statistics, the dashboard cards, the public counts and
    the simple counts report the same four numbers over the same
    documents: the pending products, all engineers, the shops both
    verified and active, and the active ads.  The cards and the public
    counts carry the same data. *)
Theorem headline_counts_agree ep ep' w w' req req' c c' :
  is_aggregator ep -> is_aggregator ep' -> same_state w w' ->
  reported_counts (handle ep w req) = Some c ->
  reported_counts (handle ep' w' req') = Some c' ->
  c = c' /\
  pendingApprovals c =
    length (filter (fun d => field d "status" = VStr "pending") (products w)) /\
  totalEngineers c = length (engineers w) /\
  verifiedShops c =
    length (filter (fun d => field d "isVerified" = VBool true /\
                             field d "isActive" = VBool true) (shops w)) /\
  activeAds c = length (filter (fun d => field d "active" = VBool true) (ads w)) /\
  data (getDashboardCards w req) = data (getDashboardCounts w req').
Proof.
  intros Hep Hep' Hsame Hc Hc'.
  apply aggregator_counts in Hc; [|done]. apply aggregator_counts in Hc'; [|done].
  pose proof (Hsame Product) as Ep. pose proof (Hsame Engineer) as Ee.
  pose proof (Hsame Shop) as Es. pose proof (Hsame Ads) as Ea.
  cbn [collection] in Ep, Ee, Es, Ea.
  subst c c'. rewrite <- Ep, <- Ee, <- Es, <- Ea.
  split; [done|]. cbn [pendingApprovals totalEngineers verifiedShops activeAds].
  split; [apply count_ext; intros d; apply (matches_with_status "pending")|].
  split; [by rewrite filter_matches_empty|].
  split; [apply count_ext; intros d; apply matches_verified_shops|].
  split.
  - apply count_ext. intros d. unfold matches, active_ads_query.
    by rewrite map_Forall_singleton.
  - unfold getDashboardCards, getDashboardCounts, try_catch, mbind, M_bind.
    by destruct (headline_counts w 0%nat).
Qed.

Lemma headline_counts_agree_witness :
  {| pendingApprovals := 1; totalEngineers := 3; verifiedShops := 1; activeAds := 1 |}%nat =
  {| pendingApprovals := 1; totalEngineers := 3; verifiedShops := 1; activeAds := 1 |}%nat /\
  (1 = length (filter (fun d => field d "isVerified" = VBool true /\
                                field d "isActive" = VBool true) (shops marketplace)))%nat.
Proof.
  destruct (headline_counts_agree AdminDashboardStats SimpleCounts marketplace marketplace
              no_params no_params
              {| pendingApprovals := 1; totalEngineers := 3; verifiedShops := 1;
                 activeAds := 1 |}%nat
              {| pendingApprovals := 1; totalEngineers := 3; verifiedShops := 1;
                 activeAds := 1 |}%nat)
    as (Heq & _ & _ & Hshops & _).
  - exact I.
  - exact I.
  - intros m. reflexivity.
  - vm_compute. reflexivity.
  - vm_compute. reflexivity.
  - split; [exact Heq | exact Hshops].
Defined.

(** ** What a lister returns *)






(** ** The pages of a lister, taken together *)






(** ** The order of the items *)

Lemma string_compare_trans s1 : forall s2 s3,
  String.compare s1 s2 <> Gt -> String.compare s2 s3 <> Gt -> String.compare s1 s3 <> Gt.
Proof.
  induction s1 as [|c1 s1 IH]; intros [|c2 s2] [|c3 s3]; simpl; try congruence.
  unfold Ascii.compare.
  destruct (N.compare_spec (N_of_ascii c1) (N_of_ascii c2)) as [E12|L12|G12];
    destruct (N.compare_spec (N_of_ascii c2) (N_of_ascii c3)) as [E23|L23|G23];
    destruct (N.compare_spec (N_of_ascii c1) (N_of_ascii c3)) as [E13|L13|G13];
    try congruence; try lia.
  apply IH.
Qed.

Lemma bool_compare_trans b1 b2 b3 :
  Bool.compare b1 b2 <> Gt -> Bool.compare b2 b3 <> Gt -> Bool.compare b1 b3 <> Gt.
Proof. destruct b1, b2, b3; simpl; congruence. Qed.

Lemma Z_compare_trans x y z : (x ?= y) <> Gt -> (y ?= z) <> Gt -> (x ?= z) <> Gt.
Proof.
  destruct (Z.compare_spec x y), (Z.compare_spec y z), (Z.compare_spec x z);
    try congruence; lia.
Qed.

Lemma value_compare_antisym a b : value_compare a b = CompOpp (value_compare b a).
Proof.
  destruct a as [|x|x|x], b as [|y|y|y]; simpl; try reflexivity.
  - by destruct x, y.
  - apply Z.compare_antisym.
  - apply String.compare_antisym.
Qed.

Lemma value_compare_trans a b c :
  value_compare a b <> Gt -> value_compare b c <> Gt -> value_compare a c <> Gt.
Proof.
  destruct a as [|x|x|x], b as [|y|y|y], c as [|z|z|z]; simpl;
    first [ apply bool_compare_trans | apply Z_compare_trans
          | apply string_compare_trans | vm_compute; intros; congruence ].
Qed.

(** Insertion sort orders a list when the comparison is a total
    preorder. *)
Lemma sort_by_sorted {A} (cmp : A -> A -> comparison) (l : list A) :
  (forall x y, cmp x y = Gt -> cmp y x <> Gt) ->
  (forall x y z, cmp x y <> Gt -> cmp y z <> Gt -> cmp x z <> Gt) ->
  StronglySorted (fun a b => cmp a b <> Gt) (sort_by cmp l).
Proof.
  intros Htotal Htrans. unfold sort_by.
  induction l as [|x l IH]; simpl; [constructor|].
  revert IH. generalize (foldr (insert_by cmp) [] l). clear l.
  intros l Hs. induction Hs as [|y l Hs IH Hy]; simpl; [repeat constructor|].
  destruct (cmp x y) eqn:E.
  - constructor; [by constructor|].
    constructor; [congruence|]. eapply Forall_impl; [exact Hy|].
    intros z Hz. simpl in Hz. apply (Htrans x y z); congruence.
  - constructor; [by constructor|].
    constructor; [congruence|]. eapply Forall_impl; [exact Hy|].
    intros z Hz. simpl in Hz. apply (Htrans x y z); congruence.
  - constructor; [exact IH|].
    rewrite insert_by_perm. constructor; [by apply Htotal|done].
Qed.

(** The order of two documents on one key. *)
Lemma doc_compare_key k dir a b :
  doc_compare [(k, dir)] a b =
  match dir with
  | Asc => value_compare (field a k) (field b k)
  | Desc => value_compare (field b k) (field a k)
  end.
Proof.
  simpl. destruct dir.
  - by destruct (value_compare (field a k) (field b k)).
  - rewrite (value_compare_antisym (field b k) (field a k)).
    by destruct (value_compare (field a k) (field b k)).
Qed.

Lemma sort_docs_key_sorted k dir (l : list doc) :
  StronglySorted (fun a b => doc_compare [(k, dir)] a b <> Gt) (sort_docs [(k, dir)] l).
Proof.
  apply sort_by_sorted.
  - intros x y. rewrite !doc_compare_key. destruct dir.
    + rewrite (value_compare_antisym (field y k)). by intros ->.
    + rewrite (value_compare_antisym (field x k)). by intros ->.
  - intros x y z. rewrite !doc_compare_key. destruct dir.
    + apply value_compare_trans.
    + intros H1 H2. by apply (value_compare_trans _ (field y k)).
Qed.

Lemma lookup_limit_docs {A} n (l : list A) i x :
  limit_docs n l !! i = Some x -> l !! i = Some x.
Proof. destruct n; simpl; [done|]. by intros [? _]%lookup_take_Some. Qed.

(** X11: the items of a response are in the order asked for: on the field
    [sortBy] ([createdAt] when absent), ascending when [sortOrder] is 1
    and descending when it is -1 or absent; in particular, with neither
    parameter, from the newest to the oldest.  (This is about a field the
    projection keeps, and a name other than [__proto__].) *)
Theorem lister_items_sorted l w req items pg i j a b :
  listing (run_lister l w req) = Some (items, pg) ->
  let key := default "createdAt" (sortBy req) in
  key <> "__proto__" -> key ∉ lister_excluded l ->
  (i < j)%nat -> items !! i = Some a -> items !! j = Some b ->
  exists dir,
    sort_direction (parseInt (or_default (sortOrder req) (-1))) = Some dir /\
    (sortOrder req = None -> dir = Desc) /\
    match dir with
    | Asc => value_compare (field a key) (field b key) <> Gt
    | Desc => value_compare (field a key) (field b key) <> Lt
    end.
Proof.
  intros Hr key Hproto Hkey Hij Ha Hb.
  apply lister_success in Hr as (spec & s & n & Hs & _ & _ & -> & _).
  unfold req_sort, set_property in Hs. fold key in Hs.
  rewrite decide_False in Hs by done. cbn [assoc_set check_sort] in Hs.
  destruct (sort_direction _) as [dir|] eqn:Hdir; [|discriminate].
  injection Hs as <-. exists dir. split; [done|].
  split; [intros E; rewrite E in Hdir; vm_compute in Hdir; congruence|].
  rewrite list_lookup_fmap in Ha, Hb.
  destruct (limit_docs n _ !! i) as [a0|] eqn:Ha0; [|discriminate].
  destruct (limit_docs n _ !! j) as [b0|] eqn:Hb0; [|discriminate].
  injection Ha as <-. injection Hb as <-.
  apply lookup_limit_docs in Ha0, Hb0. rewrite lookup_drop in Ha0, Hb0.
  rewrite !field_select by done.
  pose proof (StronglySorted_lookup_lt _ _ (s + i) (s + j) a0 b0
                (sort_docs_key_sorted key dir _) ltac:(lia) Ha0 Hb0) as H.
  cbv beta in H. rewrite doc_compare_key in H. destruct dir; [exact H|].
  rewrite value_compare_antisym. destruct (value_compare (field b0 key) (field a0 key));
    simpl; congruence.
Qed.

Lemma lister_items_sorted_witness :
  value_compare (field (select ["__v"] (product 3 "pending" "Battery" "Taiz" 30)) "createdAt")
                (field (select ["__v"] (product 1 "pending" "Panel" "Sanaa" 10)) "createdAt")
  <> Lt.
Proof.
  destruct (lister_items_sorted PendingApprovals three_regions no_params
              [select ["__v"] (product 3 "pending" "Battery" "Taiz" 30);
               select ["__v"] (product 2 "pending" "Panel" "Aden" 20);
               select ["__v"] (product 1 "pending" "Panel" "Sanaa" 10)]
              {| currentPage := of_Z 1; totalPages := of_Z 1;
                 totalItems := 3; itemsPerPage := of_Z 10 |}
              0%nat 2%nat
              (select ["__v"] (product 3 "pending" "Battery" "Taiz" 30))
              (select ["__v"] (product 1 "pending" "Panel" "Sanaa" 10)))
    as (dir & _ & Hdesc & Hord).
  - vm_compute. reflexivity.
  - discriminate.
  - cbn. repeat (apply not_elem_of_cons; split; [done|]). apply not_elem_of_nil.
  - lia.
  - reflexivity.
  - reflexivity.
  - rewrite (Hdesc eq_refl) in Hord. exact Hord.
Defined.

(** ** Pages and limits at the edge *)






(** ** The two values of a boolean filter, together *)

Lemma count_split_flag (B : doc -> Prop) `{!forall d, Decision (B d)} (k : string)
    (docs : list doc) :
  (length (filter (fun d => B d /\ field d k = VBool true) docs) +
   length (filter (fun d => B d /\ field d k = VBool false) docs)
   <= length (filter B docs))%nat /\
  ((length (filter (fun d => B d /\ field d k = VBool true) docs) +
    length (filter (fun d => B d /\ field d k = VBool false) docs)
    = length (filter B docs))%nat <->
   forall d, d ∈ docs -> B d -> exists b, field d k = VBool b).
Proof.
  induction docs as [|d docs [IHle IHeq]].
  { split; [done|]. split; [|done]. intros _ d Hd. by apply elem_of_nil in Hd. }
  pose proof (length_filter (fun d => B d /\ field d k = VBool true) docs) as Lt.
  pose proof (length_filter (fun d => B d /\ field d k = VBool false) docs) as Lf.
  assert ((forall d', d' ∈ d :: docs -> B d' -> exists b, field d' k = VBool b) <->
          ((B d -> exists b, field d k = VBool b) /\
           forall d', d' ∈ docs -> B d' -> exists b, field d' k = VBool b)) as Hcons.
  { split.
    - intros Hall. split; [apply Hall, list_elem_of_here|].
      intros d' Hd'. by apply Hall, list_elem_of_further.
    - intros [H1 H2] d' [->|Hd']%elem_of_cons; [done|by apply H2]. }
  rewrite Hcons, <- IHeq.
  rewrite !filter_cons.
  destruct (decide (B d)) as [HB|HB].
  - destruct (field d k) as [|[]| |] eqn:E.
    + rewrite !decide_False by (intros [_ ?]; discriminate). simpl length.
      split; [lia|]. split; [lia|]. intros [Hall _]. destruct (Hall HB) as [b ?]. discriminate.
    + rewrite decide_True by done. rewrite decide_False by (intros [_ ?]; discriminate).
      simpl length. split; [lia|]. split; [intros; split; [by eauto|lia]|intros [_ ?]; lia].
    + rewrite decide_False by (intros [_ ?]; discriminate). rewrite decide_True by done.
      simpl length. split; [lia|]. split; [intros; split; [by eauto|lia]|intros [_ ?]; lia].
    + rewrite !decide_False by (intros [_ ?]; discriminate). simpl length.
      split; [lia|]. split; [lia|]. intros [Hall _]. destruct (Hall HB) as [b ?]. discriminate.
    + rewrite !decide_False by (intros [_ ?]; discriminate). simpl length.
      split; [lia|]. split; [lia|]. intros [Hall _]. destruct (Hall HB) as [b ?]. discriminate.
  - rewrite !decide_False by (intros [? _]; done).
    split; [lia|]. split; [intros; split; [done|lia]|intros [_ ?]; lia].
Qed.

(** X14: for the engineers, shops and ads listers, the total with the
    parameter [true] and the total with any other string are together at
    most the total without the parameter, and exactly that when every
    document of the base query holds a boolean in the field. *)
Theorem flag_totals_split l w reqT reqF reqN s pgT pgF pgN :
  l <> PendingApprovals ->
  flag_param l reqT = Some "true" ->
  flag_param l reqF = Some s -> s <> "true" ->
  flag_param l reqN = None ->
  snd <$> listing (run_lister l w reqT) = Some pgT ->
  snd <$> listing (run_lister l w reqF) = Some pgF ->
  snd <$> listing (run_lister l w reqN) = Some pgN ->
  (totalItems pgT + totalItems pgF <= totalItems pgN)%nat /\
  ((totalItems pgT + totalItems pgF = totalItems pgN)%nat <->
   forall d, d ∈ collection w (lister_model l) -> matches (base_query l) d ->
     exists b, field d (flag_field l) = VBool b).
Proof.
  intros Hl HT HF Hs HN HrT HrF HrN.
  assert (forall req pg, snd <$> listing (run_lister l w req) = Some pg ->
            totalItems pg =
            length (filter (matches (lister_query l req)) (collection w (lister_model l))))
    as Htotal.
  { intros req pg H.
    destruct (listing (run_lister l w req)) as [[items pg']|] eqn:Hr; [|discriminate].
    injection H as ->.
    by apply lister_success in Hr as (? & ? & ? & _ & _ & _ & _ & ->). }
  rewrite (Htotal _ _ HrT), (Htotal _ _ HrF), (Htotal _ _ HrN).
  assert (lister_query l reqN = base_query l) as ->
    by (unfold lister_query, boolean_filter; by rewrite HN).
  rewrite (count_ext _ _ _ (fun d => matches_flag l reqT "true" d Hl HT)).
  rewrite (count_ext _ _ _ (fun d => matches_flag l reqF s d Hl HF)).
  rewrite bool_decide_eq_true_2 by done. rewrite bool_decide_eq_false_2 by done.
  apply count_split_flag.
Qed.

Lemma flag_totals_split_witness :
  (totalItems {| currentPage := of_Z 1; totalPages := of_Z 1;
                 totalItems := 1; itemsPerPage := of_Z 10 |} +
   totalItems {| currentPage := of_Z 1; totalPages := of_Z 1;
                 totalItems := 2; itemsPerPage := of_Z 10 |}
   <= totalItems {| currentPage := of_Z 1; totalPages := of_Z 1;
                    totalItems := 3; itemsPerPage := of_Z 10 |})%nat.
Proof.
  refine (proj1 (flag_totals_split EngineersList marketplace
                   (filtered (Some "true") None) (filtered (Some "no") None)
                   (filtered None None) "no" _ _ _ _ _ _ _ _ _ _ _)).
  - discriminate.
  - reflexivity.
  - reflexivity.
  - discriminate.
  - reflexivity.
  - vm_compute. reflexivity.
  - vm_compute. reflexivity.
  - vm_compute. reflexivity.
Defined.

(** ** The total and the paging *)

(** X15: [totalItems] depends on the filter alone: two requests to a lister
    with the same boolean parameter report the same total over the same
    documents, whatever their page, limit and sort. *)
Theorem totalItems_ignores_paging l w w' req req' pg pg' :
  same_state w w' -> flag_param l req = flag_param l req' ->
  snd <$> listing (run_lister l w req) = Some pg ->
  snd <$> listing (run_lister l w' req') = Some pg' ->
  totalItems pg = totalItems pg'.
Proof.
  intros Hsame Hflag Hr Hr'.
  destruct (listing (run_lister l w req)) as [[items p]|] eqn:E; [|discriminate].
  destruct (listing (run_lister l w' req')) as [[items' p']|] eqn:E'; [|discriminate].
  injection Hr as ->. injection Hr' as ->.
  apply lister_success in E as (? & ? & ? & _ & _ & _ & _ & ->).
  apply lister_success in E' as (? & ? & ? & _ & _ & _ & _ & ->).
  cbn [pagination totalItems]. unfold lister_query. by rewrite Hflag, Hsame.
Qed.

Lemma totalItems_ignores_paging_witness :
  totalItems {| currentPage := of_Z 1; totalPages := of_Z 1;
                totalItems := 3; itemsPerPage := of_Z 10 |} =
  totalItems {| currentPage := of_Z 2; totalPages := of_Z 2;
                totalItems := 3; itemsPerPage := of_Z 2 |}.
Proof.
  refine (totalItems_ignores_paging PendingApprovals three_regions three_regions
            no_params
            {| page := Some "2"; limit := Some "2"; sortBy := Some "governorate";
               sortOrder := Some "1"; verified := None; active := None |}
            _ _ _ _ _ _).
  - intros m. reflexivity.
  - reflexivity.
  - vm_compute. reflexivity.
  - vm_compute. reflexivity.
Defined.
